(** * A personal library catalogue: [library.py]

    The program keeps an ordered collection of book records in memory,
    loads it from a JSON file when the manager is constructed and writes
    it back on request.  This development embeds the two classes [Book]
    and [LibraryManager] and the menu loop of [main], checks the
    properties the specification states about them, and then further
    properties that the code shows.

    Modelling conventions.
    - A Python [int] is a [Z]; a Python [str] is a [string] (the bytes of
      its UTF-8 form, so that the literals read as in the source).
    - A [Book] has the attribute types of its annotations: [id] and
      [year] are integers, [title], [author] and [status] are strings.
    - [self.books] is a Python list of pairwise distinct objects (only
      [_load_from_file] and [add_book] put objects in it, and both build
      fresh ones), so an object is identified by its position: the
      object found by [next(...)] is the one at the index [list_find]
      returns, [book.status = ...] rewrites that position and
      [self.books.remove(book)] deletes it.
    - [json.dump] followed by [json.load] is taken as the identity on
      documents: a file holds bytes that are not UTF-8, text that the
      decoder rejects, or a JSON document.  The file system is always
      writable, and a file is named by the string of its path.
    - [str.lower] is a parameter [lower] of the development, and so are
      [int] on text ([py_int]) and [repr] of a string ([repr_str]) in the
      model of [main].  The terminal is a list of lines to read and a
      list of lines and prompts written. *)

From stdpp Require Import base list strings gmap pretty.

#[local] Set Warnings "-register-all".
#[local] Open Scope string_scope.
#[local] Open Scope list_scope.
#[local] Open Scope Z_scope.

(** ** Outcomes of a call *)

(** The exception classes the modelled code can raise. *)
Inductive exn : Set :=
  | FileNotFoundError
  | JSONDecodeError
  | UnicodeDecodeError
  | KeyError
  | TypeError.

#[global] Instance exn_eq_dec : EqDecision exn.
Proof. solve_decision. Defined.

(** A call returns, raises, or leaves the typed model: Python does not
    enforce annotations, so [Book.from_dict] on a map whose values have
    other types returns normally with an object that is no [Book] as
    annotated.  [Untyped] marks such a run; nothing is claimed about it. *)
Inductive outcome (A : Type) : Type :=
  | Return (a : A)
  | Raise (e : exn)
  | Untyped.

Arguments Return {A} a.
Arguments Raise {A} e.
Arguments Untyped {A}.

#[global] Instance outcome_ret : MRet outcome := λ A a, Return a.
#[global] Instance outcome_bind : MBind outcome := λ A B f m,
  match m with
  | Return a => f a
  | Raise e => Raise e
  | Untyped => Untyped
  end.

(** [try: body except classes: handler]. *)
Definition try_except {A} (body : outcome A) (classes : list exn)
    (handler : outcome A) : outcome A :=
  match body with
  | Raise e => if bool_decide (e ∈ classes) then handler else Raise e
  | r => r
  end.

(** The items of a list comprehension [[f(x) for x in items]], evaluated
    left to right; the first call that does not return ends it. *)
Fixpoint comprehension {A B} (f : A → outcome B) (items : list A)
    : outcome (list B) :=
  match items with
  | [] => Return []
  | x :: rest => y ← f x; ys ← comprehension f rest; Return (y :: ys)
  end.

(** ** JSON documents, as [json.load] returns them *)

Inductive json : Type :=
  | JNull
  | JBool (b : bool)
  | JInt (n : Z)
  | JFloat (literal : string)
  | JStr (s : string)
  | JArr (items : list json)
  | JObj (members : gmap string json).

(** [data[key]] with a string key: only a dict can be subscripted so. *)
Definition getitem (data : json) (key : string) : outcome json :=
  match data with
  | JObj members =>
      match members !! key with
      | Some v => Return v
      | None => Raise KeyError
      end
  | _ => Raise TypeError
  end.

(** [for x in doc]: a list yields its items, a dict its keys, a string
    its characters (one [ascii] each in the model); the other values
    are not iterable. *)
Definition iterate (doc : json) : outcome (list json) :=
  match doc with
  | JArr items => Return items
  | JObj members => Return (JStr <$> (map_to_list members).*1)
  | JStr s => Return ((λ c, JStr (String c "")) <$> String.list_ascii_of_string s)
  | _ => Raise TypeError
  end.

Definition as_int (v : json) : outcome Z :=
  match v with JInt n => Return n | _ => Untyped end.

Definition as_str (v : json) : outcome string :=
  match v with JStr s => Return s | _ => Untyped end.

(** ** class Book *)

Record Book : Set := mkBook {
  id : Z;
  title : string;
  author : string;
  year : Z;
  status : string;
}.

#[global] Instance Book_eq_dec : EqDecision Book.
Proof. solve_decision. Defined.

(** The default of the [status] parameter of [Book.__init__]. *)
Definition default_status : string := "в наличии".

(** [Book(book_id, title, author, year)], the status left to its default. *)
Definition Book_init (book_id : Z) (title author : string) (year : Z) : Book :=
  mkBook book_id title author year default_status.

(** [book.status = new_status]. *)
Definition set_status (new_status : string) (book : Book) : Book :=
  mkBook (id book) (title book) (author book) (year book) new_status.

Definition to_dict (self : Book) : json :=
  JObj {[ "id" := JInt (id self);
          "title" := JStr (title self);
          "author" := JStr (author self);
          "year" := JInt (year self);
          "status" := JStr (status self) ]}.

(** The five subscripts are evaluated in the order of the keyword
    arguments; the first missing key raises before anything is built. *)
Definition from_dict (data : json) : outcome Book :=
  v_id ← getitem data "id";
  v_title ← getitem data "title";
  v_author ← getitem data "author";
  v_year ← getitem data "year";
  v_status ← getitem data "status";
  book_id ← as_int v_id;
  title ← as_str v_title;
  author ← as_str v_author;
  year ← as_int v_year;
  status ← as_str v_status;
  Return (mkBook book_id title author year status).

(** ** Files *)

(** What a path holds: bytes that do not decode as UTF-8, text that
    [json.load] rejects, or a document it returns. *)
Inductive file : Type :=
  | Undecodable (bytes : list Byte.byte)
  | Malformed (text : string)
  | Document (doc : json).

(** [open(filename, "r")]. *)
Definition open_r (fs : gmap string file) (filename : string) : outcome file :=
  match fs !! filename with
  | Some f => Return f
  | None => Raise FileNotFoundError
  end.

(** [json.load(file)]: it reads the whole file, which decodes it as the
    [encoding="utf-8"] of [open] asks, and then parses the text. *)
Definition json_load (f : file) : outcome json :=
  match f with
  | Undecodable _ => Raise UnicodeDecodeError
  | Malformed _ => Raise JSONDecodeError
  | Document doc => Return doc
  end.

(** ** class LibraryManager *)

Record LibraryManager : Type := mkLibraryManager {
  filename : string;
  books : list Book;
}.

Definition set_books (books' : list Book) (self : LibraryManager) : LibraryManager :=
  mkLibraryManager (filename self) books'.

Definition _load_from_file (filename : string) (fs : gmap string file)
    : outcome (list Book) :=
  try_except
    (f ← open_r fs filename;
     doc ← json_load f;
     items ← iterate doc;
     comprehension from_dict items)
    [FileNotFoundError; JSONDecodeError]
    (Return []).

(** [LibraryManager(filename)]. *)
Definition LibraryManager_init (filename : string) (fs : gmap string file)
    : outcome LibraryManager :=
  books ← _load_from_file filename fs;
  Return (mkLibraryManager filename books).

(** [open(filename, "w")] and [json.dump]: the file is replaced by the
    document of the current collection. *)
Definition save_to_file (self : LibraryManager) (fs : gmap string file)
    : gmap string file :=
  <[filename self := Document (JArr (to_dict <$> books self))]> fs.

(** [max(ids, default=default)]: the first item is the running maximum,
    replaced by each later item that is greater. *)
Definition py_max (default : Z) (items : list Z) : Z :=
  match items with
  | [] => default
  | x :: rest => foldl (λ best y, if bool_decide (best < y) then y else best) x rest
  end.

Definition add_book (title author : string) (year : Z) (self : LibraryManager)
    : Book * LibraryManager :=
  let book_id := py_max 0 (id <$> books self) + 1 in
  let new_book := Book_init book_id title author year in
  (new_book, set_books (books self ++ [new_book]) self).

(** [next((book for book in self.books if book.id == book_id), None)]
    is [list_find]; a [Book] object is always true, so [if book:] tests
    that one was found.  [self.books.remove(book)] deletes the first
    position that holds this object, which is the position found. *)
Definition remove_book (book_id : Z) (self : LibraryManager)
    : bool * LibraryManager :=
  match list_find (λ book, id book = book_id) (books self) with
  | Some (i, book) => (true, set_books (delete i (books self)) self)
  | None => (false, self)
  end.

Definition statuses : gset string := {[ "в наличии"; "выдана" ]}.

Definition update_status (book_id : Z) (new_status : string)
    (self : LibraryManager) : bool * LibraryManager :=
  if bool_decide (new_status ∉ statuses) then (false, self)
  else
    match list_find (λ book, id book = book_id) (books self) with
    | Some (i, book) =>
        (true, set_books (alter (set_status new_status) i (books self)) self)
    | None => (false, self)
    end.

(** [str(n)] for an integer. *)
Definition str_int (n : Z) : string := pretty n.

(** [str(getattr(book, key, ""))] on the data attributes of a [Book];
    [search_books] only gets here with one of its three keys. *)
Definition getattr_str (book : Book) (key : string) : string :=
  if bool_decide (key = "id") then str_int (id book)
  else if bool_decide (key = "title") then title book
  else if bool_decide (key = "author") then author book
  else if bool_decide (key = "year") then str_int (year book)
  else if bool_decide (key = "status") then status book
  else "".

(** [s.startswith(prefix)]. *)
Fixpoint startswith (s prefix : string) {struct prefix} : bool :=
  match prefix, s with
  | "", _ => true
  | String a prefix', String b s' =>
      if bool_decide (a = b) then startswith s' prefix' else false
  | String _ _, "" => false
  end.

(** [needle in hay] on strings: [needle] starts at some position of [hay]. *)
Fixpoint py_in (needle hay : string) : bool :=
  if startswith hay needle then true
  else
    match hay with
    | "" => false
    | String _ hay' => py_in needle hay'
    end.

Definition search_keys : gset string := {[ "title"; "author"; "year" ]}.

(** One line of [display_books]. *)
Definition book_line (book : Book) : string :=
  "ID: " +:+ str_int (id book) +:+ ", Название: " +:+ title book
  +:+ ", Автор: " +:+ author book +:+ ", Год: " +:+ str_int (year book)
  +:+ ", Статус: " +:+ status book.

(** The lines [display_books] prints. *)
Definition display_books (self : LibraryManager) : list string :=
  match books self with
  | [] => ["Библиотека пуста."]
  | _ => "Список книг:" :: (book_line <$> books self)
  end.

(** [str.lower] on ASCII text, for concrete runs: on strings of ASCII
    characters it is what Python computes. *)
Definition ascii_lower_char (c : Ascii.ascii) : Ascii.ascii :=
  let n := Ascii.N_of_ascii c in
  if bool_decide (65 ≤ n ≤ 90)%N then Ascii.ascii_of_N (n + 32) else c.

Fixpoint ascii_lower (s : string) : string :=
  match s with
  | "" => ""
  | String c s' => String (ascii_lower_char c) (ascii_lower s')
  end.

Section WithLower.

(** [str.lower], with Python's Unicode case mapping left open. *)
Variable lower : string → string.

Definition search_books (query key : string) (self : LibraryManager)
    : list Book * LibraryManager :=
  if bool_decide (key ∉ search_keys) then ([], self)
  else
    (filter (λ book, py_in (lower query) (lower (getattr_str book key)) = true)
       (books self),
     self).

(** The branch [elif choice == "3"] of [main], after its two [input]
    calls returned [key] and [query]: the lines it prints. *)
Definition main_search (key query : string) (self : LibraryManager)
    : list string :=
  let results := (search_books query key self).1 in
  match results with
  | [] => ["Книги не найдены."]
  | _ => display_books self
  end.

(** ** Sequences of calls *)

Inductive command : Type :=
  | CAdd (title author : string) (year : Z)
  | CRemove (book_id : Z)
  | CSearch (query key : string)
  | CUpdate (book_id : Z) (new_status : string)
  | CDisplay.

Inductive response : Type :=
  | RBook (book : Book)
  | RBool (ok : bool)
  | RBooks (found : list Book)
  | RPrinted (lines : list string).

Definition exec (c : command) (self : LibraryManager)
    : response * LibraryManager :=
  match c with
  | CAdd title author year =>
      let r := add_book title author year self in (RBook r.1, r.2)
  | CRemove book_id =>
      let r := remove_book book_id self in (RBool r.1, r.2)
  | CSearch query key =>
      let r := search_books query key self in (RBooks r.1, r.2)
  | CUpdate book_id new_status =>
      let r := update_status book_id new_status self in (RBool r.1, r.2)
  | CDisplay => (RPrinted (display_books self), self)
  end.

(** The calls in order, each on the store the previous one left. *)
Fixpoint run (cmds : list command) (self : LibraryManager)
    : list response * LibraryManager :=
  match cmds with
  | [] => ([], self)
  | c :: rest =>
      let r := exec c self in
      let rs := run rest r.2 in
      (r.1 :: rs.1, rs.2)
  end.

End WithLower.

(** ** The console and [main] *)

(** What the program writes: the line of a [print], or the prompt of an
    [input], which ends no line. *)
Inductive output : Type :=
  | Line (text : string)
  | Prompt (text : string).

(** The files, the lines still to be read from the terminal and what was
    written so far. *)
Record world : Type := mkWorld {
  files : gmap string file;
  stdin : list string;
  stdout : list output;
}.

(** A step of [main] goes on with a value, or [input] has raised
    [EOFError], which nothing in [main] catches. *)
Inductive io_result (A : Type) : Type :=
  | Got (a : A) (w : world)
  | EOFError (w : world).

Arguments Got {A} a w.
Arguments EOFError {A} w.

Definition io (A : Type) : Type := world → io_result A.

#[global] Instance io_ret : MRet io := λ A a w, Got a w.
#[global] Instance io_bind : MBind io := λ A B f m w,
  match m w with
  | Got a w' => f a w'
  | EOFError w' => EOFError w'
  end.

Definition print (text : string) : io unit := λ w,
  Got () (mkWorld (files w) (stdin w) (stdout w ++ [Line text])).

(** Several [print] calls in a row. *)
Definition print_lines (lines : list string) : io unit := λ w,
  Got () (mkWorld (files w) (stdin w) (stdout w ++ (Line <$> lines))).

(** [input(prompt)]: the prompt is written, then a line is read. *)
Definition input (prompt : string) : io string := λ w,
  match stdin w with
  | [] => EOFError (mkWorld (files w) [] (stdout w ++ [Prompt prompt]))
  | line :: rest => Got line (mkWorld (files w) rest (stdout w ++ [Prompt prompt]))
  end.

(** [library.save_to_file()]. *)
Definition write_file (library : LibraryManager) : io unit := λ w,
  Got () (mkWorld (save_to_file library (files w)) (stdin w) (stdout w)).

(** The menu, seven [print] calls; the first starts with a line feed. *)
Definition menu : list string :=
  [String (Ascii.ascii_of_N 10) "Меню:"; "1. Добавить книгу"; "2. Удалить книгу";
   "3. Искать книгу"; "4. Показать все книги"; "5. Изменить статус книги";
   "6. Выйти"].

(** How one turn of [while True] ends: with the next turn, or with
    [break]. *)
Inductive control : Type :=
  | Continue (library : LibraryManager)
  | Break (library : LibraryManager).

Section Console.

Variable lower : string → string.

(** [int(text)]: the number, or [None] for [ValueError]. *)
Variable py_int : string → option Z.

(** [repr(text)] of a string. *)
Variable repr_str : string → string.

(** [str(book.to_dict())]: the five entries in the order [to_dict]
    writes them. *)
Definition repr_to_dict (book : Book) : string :=
  "{'id': " +:+ str_int (id book) +:+ ", 'title': " +:+ repr_str (title book)
  +:+ ", 'author': " +:+ repr_str (author book) +:+ ", 'year': " +:+ str_int (year book)
  +:+ ", 'status': " +:+ repr_str (status book) +:+ "}".

(** The body of the loop of [main].  Each [try] has [int(input(...))]
    as the only call that can raise [ValueError]. *)
Definition iteration (library : LibraryManager) : io control :=
  _ ← print_lines menu;
  choice ← input "Выберите действие: ";
  if bool_decide (choice = "1") then
    title ← input "Введите название книги: ";
    author ← input "Введите автора книги: ";
    year_text ← input "Введите год издания книги: ";
    match py_int year_text with
    | Some year =>
        let r := add_book title author year library in
        _ ← print ("Книга добавлена: " +:+ repr_to_dict r.1);
        mret (Continue r.2)
    | None =>
        _ ← print "Ошибка: Год издания должен быть числом.";
        mret (Continue library)
    end
  else if bool_decide (choice = "2") then
    id_text ← input "Введите ID книги, которую хотите удалить: ";
    match py_int id_text with
    | Some book_id =>
        let r := remove_book book_id library in
        _ ← print (if r.1 then "Книга успешно удалена."
                   else "Ошибка: Книга с указанным ID не найдена.");
        mret (Continue r.2)
    | None =>
        _ ← print "Ошибка: ID должен быть числом.";
        mret (Continue library)
    end
  else if bool_decide (choice = "3") then
    key ← input "По какому полю искать (title/author/year): ";
    query ← input "Введите значение для поиска: ";
    _ ← print_lines (main_search lower key query library);
    mret (Continue library)
  else if bool_decide (choice = "4") then
    _ ← print_lines (display_books library);
    mret (Continue library)
  else if bool_decide (choice = "5") then
    id_text ← input "Введите ID книги: ";
    match py_int id_text with
    | Some book_id =>
        new_status ← input "Введите новый статус (в наличии/выдана): ";
        let r := update_status book_id new_status library in
        _ ← print (if r.1 then "Статус книги успешно обновлен."
                   else "Ошибка: Книга с указанным ID не найдена.");
        mret (Continue r.2)
    | None =>
        _ ← print "Ошибка: ID должен быть числом.";
        mret (Continue library)
    end
  else if bool_decide (choice = "6") then
    _ ← write_file library;
    _ ← print "Данные сохранены. До свидания!";
    mret (Break library)
  else
    _ ← print "Ошибка: Неверный выбор. Попробуйте снова.";
    mret (Continue library).

(** How [main] ends: it returns after [break], [EOFError] leaves it, or
    the constructor of the manager did not return. *)
Inductive finish : Type :=
  | Exited (library : LibraryManager) (w : world)
  | InputEnded (w : world)
  | LoadRaised (e : exn)
  | LoadUntyped
  | NoFuel.

Fixpoint loop (fuel : nat) (library : LibraryManager) (w : world) : finish :=
  match fuel with
  | O => NoFuel
  | S fuel' =>
      match iteration library w with
      | Got (Continue library') w' => loop fuel' library' w'
      | Got (Break library') w' => Exited library' w'
      | EOFError w' => InputEnded w'
      end
  end.

(** [main()] on a terminal that still holds the lines [stdin w]: every
    turn reads at least one of them, so that many turns and one are
    enough. *)
Definition main (w : world) : finish :=
  match LibraryManager_init "books.json" (files w) with
  | Return library => loop (S (length (stdin w))) library w
  | Raise e => LoadRaised e
  | Untyped => LoadUntyped
  end.

End Console.

(** ** Notions the specification uses *)

(** [needle] occurs in [hay]. *)
Definition substring (needle hay : string) : Prop :=
  ∃ before after, hay = before +:+ needle +:+ after.

(** [query] occurs in [text] when case is ignored, that is, after both
    went through [lower]. *)
Definition ci_substring (lower : string → string) (query text : string) : Prop :=
  substring (lower query) (lower text).

(** [found] holds exactly the items of [l] that satisfy [P], in the
    order of [l]. *)
Inductive selects {A} (P : A → Prop) : list A → list A → Prop :=
  | selects_nil : selects P [] []
  | selects_keep x l found : P x → selects P l found → selects P (x :: l) (x :: found)
  | selects_skip x l found : ¬ P x → selects P l found → selects P (x :: l) found.

(** [m] is the greatest of [items], or [default] when there is none. *)
Definition greatest_or (default : Z) (items : list Z) (m : Z) : Prop :=
  (items = [] ∧ m = default) ∨ (m ∈ items ∧ ∀ x, x ∈ items → x ≤ m).

(** Unique ids, and every status one of the two of the source. *)
Definition store_invariant (bs : list Book) : Prop :=
  NoDup (id <$> bs) ∧ Forall (λ b, status b ∈ statuses) bs.

(** The stores the program can be in: built from some file, then changed
    by some calls. *)
Definition reachable (lower : string → string) (self : LibraryManager) : Prop :=
  ∃ filename fs self0 cmds,
    LibraryManager_init filename fs = Return self0 ∧ self = (run lower cmds self0).2.

(** No call of [cmds] hands out an id that an earlier call removed. *)
Definition never_reused (lower : string → string) (self : LibraryManager)
    (cmds : list command) : Prop :=
  ∀ (p q : nat) i book,
    (p < q)%nat →
    cmds !! p = Some (CRemove i) →
    (run lower cmds self).1 !! p = Some (RBool true) →
    (run lower cmds self).1 !! q = Some (RBook book) →
    id book ≠ i.

(** The search branch prints the matches, or its message when there is
    none. *)
Definition prints_matches (lower : string → string) (key query : string)
    (self : LibraryManager) : Prop :=
  main_search lower key query self =
    match (search_books lower query key self).1 with
    | [] => ["Книги не найдены."]
    | found => "Список книг:" :: (book_line <$> found)
    end.

(** Every id is at least 1. *)
Definition positive_ids (bs : list Book) : Prop := Forall (λ b, 1 ≤ id b) bs.

(** The keys [Book.from_dict] reads and [Book.to_dict] writes. *)
Definition book_keys : list string := ["id"; "title"; "author"; "year"; "status"].

(** ** Sample data *)

(** [int] on plain decimal text, for concrete runs: on digits with an
    optional minus sign it is what Python computes. *)
Fixpoint digits_value (acc : Z) (s : string) : option Z :=
  match s with
  | "" => Some acc
  | String c s' =>
      let n := Ascii.N_of_ascii c in
      if bool_decide (48 ≤ n ≤ 57)%N
      then digits_value (10 * acc + (Z.of_N n - 48)) s'
      else None
  end.

Definition ascii_int (s : string) : option Z :=
  match s with
  | "" => None
  | String c s' =>
      if bool_decide (Ascii.N_of_ascii c = 45%N)
      then (if bool_decide (s' = "") then None else Z.opp <$> digits_value 0 s')
      else digits_value 0 s
  end.

(** [repr] on text without quotes, backslashes or control characters. *)
Definition plain_repr (s : string) : string := "'" +:+ s +:+ "'".


Definition dune : Book := mkBook 1 "Dune" "Herbert" 1965 "в наличии".
Definition emma : Book := mkBook 2 "Emma" "Austen" 1815 "выдана".
Definition shelf : LibraryManager := mkLibraryManager "books.json" [dune; emma].
Definition empty_shelf : LibraryManager := mkLibraryManager "books.json" [].

(** A session at the terminal on an empty directory: two books are
    added, the second is lent, the user leaves. *)
Definition session : world :=
  mkWorld ∅
    ["1"; "Dune"; "Herbert"; "1965"; "1"; "Emma"; "Austen"; "1815";
     "5"; "2"; "выдана"; "6"]
    [].

(** The world a run ended in. *)
Definition world_after (f : finish) (w : world) : world :=
  match f with
  | Exited _ w' | InputEnded w' => w'
  | _ => w
  end.

(** A file that holds the single byte [0xFF], which is no UTF-8. *)
Definition binary_file : file := Undecodable [Byte.xff].

(** From the two books of [shelf]: a third is added, the second is
    removed, a fourth is added. *)
Definition later_add : list command :=
  [CAdd "Solaris" "Lem" 1961; CRemove 2; CAdd "Ubik" "Dick" 1969].

(** A file with the same id twice and a status the program does not
    know, and the store it loads as. *)
Definition lost_emma : Book := mkBook 1 "Emma" "Austen" 1815 "lost".
Definition twin_file : file := Document (JArr [to_dict dune; to_dict lost_emma]).
Definition twin_shelf : LibraryManager := mkLibraryManager "books.json" [dune; lost_emma].

(** * Properties *)

(** ** Records and their maps *)

Lemma from_dict_to_dict (book : Book) : from_dict (to_dict book) = Return book.
Proof. by destruct book. Qed.

Lemma comprehension_from_dict (bs : list Book) :
  comprehension from_dict (to_dict <$> bs) = Return bs.
Proof.
  induction bs as [|b bs IH]; [done|].
  cbn [fmap list_fmap comprehension]. rewrite from_dict_to_dict. cbn.
  change (list_fmap Book json to_dict bs) with (to_dict <$> bs).
  by rewrite IH.
Qed.

(** ** Saving and loading *)


(** The two cases the [except] clause covers: when the file is missing,
    or holds text that [json.load] rejects, the load returns the empty
    collection. *)
Lemma load_missing_or_malformed (filename : string) (fs : gmap string file) :
  fs !! filename = None ∨ (∃ text, fs !! filename = Some (Malformed text)) →
  _load_from_file filename fs = Return [].
Proof.
  intros [Hnone | [text Hbad]]; unfold _load_from_file, open_r.
  - by rewrite Hnone.
  - by rewrite Hbad.
Qed.

Lemma load_missing_or_malformed_witness :
  (({[ "books.json" := Malformed "{" ]} : gmap string file) !! "books.json" = None
   ∨ ∃ text, ({[ "books.json" := Malformed "{" ]} : gmap string file) !! "books.json"
             = Some (Malformed text))
  ∧ _load_from_file "books.json" {[ "books.json" := Malformed "{" ]} = Return [].
Proof.
  assert (H : ({[ "books.json" := Malformed "{" ]} : gmap string file) !! "books.json" = None
   ∨ ∃ text, ({[ "books.json" := Malformed "{" ]} : gmap string file) !! "books.json"
             = Some (Malformed text)).
  { right. exists "{". reflexivity. }
  split; [exact H|]. exact (load_missing_or_malformed _ _ H).
Defined.

(** A file of bytes that are not UTF-8 makes the load raise. *)
Lemma load_undecodable (filename : string) (fs : gmap string file)
    (bytes : list Byte.byte) :
  fs !! filename = Some (Undecodable bytes) →
  _load_from_file filename fs = Raise UnicodeDecodeError.
Proof. intros Hfile. unfold _load_from_file, open_r. by rewrite Hfile. Qed.

(** C7.  The file exists and its contents are no valid JSON, yet the load
    does not return the empty collection: on a file that holds the byte
    [0xFF] the read inside [json.load] raises [UnicodeDecodeError], the
    [except] clause names only [FileNotFoundError] and [JSONDecodeError],
    and the exception leaves [_load_from_file] and the constructor of the
    manager. *)
Theorem load_binary_file_raises :
  _load_from_file "books.json" {[ "books.json" := binary_file ]} = Raise UnicodeDecodeError
  ∧ LibraryManager_init "books.json" {[ "books.json" := binary_file ]}
    = Raise UnicodeDecodeError
  ∧ _load_from_file "books.json" {[ "books.json" := binary_file ]} ≠ Return [].
Proof. split_and!; [reflexivity | reflexivity | discriminate]. Qed.

(** ** The running maximum *)

Lemma foldl_max_ge (rest : list Z) (x : Z) :
  x ≤ foldl (λ best y, if bool_decide (best < y) then y else best) x rest.
Proof.
  revert x. induction rest as [|y rest IH]; intros x; cbn [foldl]; [lia|].
  case_bool_decide; [etrans; [|apply IH]; lia | apply IH].
Qed.

Lemma foldl_max_upper (rest : list Z) (x z : Z) :
  z ∈ rest → z ≤ foldl (λ best y, if bool_decide (best < y) then y else best) x rest.
Proof.
  revert x. induction rest as [|y rest IH]; intros x Hz; [by apply elem_of_nil in Hz|].
  cbn [foldl]. apply elem_of_cons in Hz as [->|Hz]; [|by apply IH].
  case_bool_decide; (etrans; [|apply foldl_max_ge]); lia.
Qed.

Lemma foldl_max_elem (rest : list Z) (x : Z) :
  foldl (λ best y, if bool_decide (best < y) then y else best) x rest ∈ x :: rest.
Proof.
  revert x. induction rest as [|y rest IH]; intros x; cbn [foldl]; [by left|].
  case_bool_decide.
  - right. apply IH.
  - specialize (IH x). apply elem_of_cons in IH as [->|IH]; [by left|].
    by do 2 right.
Qed.

Lemma py_max_greatest (default : Z) (items : list Z) :
  greatest_or default items (py_max default items).
Proof.
  destruct items as [|x rest]; [by left|]. right. split.
  - apply foldl_max_elem.
  - intros z Hz. cbn [py_max].
    apply elem_of_cons in Hz as [->|Hz];
      [apply foldl_max_ge | by apply foldl_max_upper].
Qed.

Lemma greatest_or_unique (default : Z) (items : list Z) (m m' : Z) :
  greatest_or default items m → greatest_or default items m' → m = m'.
Proof.
  intros [[-> ->]|[Hm Hmax]] [[Hnil ->]|[Hm' Hmax']]; try done.
  - by apply elem_of_nil in Hm'.
  - subst. by apply elem_of_nil in Hm.
  - apply Z.le_antisymm; auto.
Qed.

(** ** Adding *)

(** C2. [add_book] always returns: the new record has the greatest id
    of the store (0 when it is empty) plus one, the given title, author
    and year and the default status; it is appended at the end, the
    records before it are as they were. *)
Theorem add_book_spec (title' author' : string) (year' : Z) (self : LibraryManager) :
  ∃ new_book m,
    add_book title' author' year' self
      = (new_book, mkLibraryManager (filename self) (books self ++ [new_book]))
    ∧ greatest_or 0 (id <$> books self) m
    ∧ id new_book = m + 1
    ∧ title new_book = title'
    ∧ author new_book = author'
    ∧ year new_book = year'
    ∧ status new_book = "в наличии"
    ∧ (books self = [] → id new_book = 1).
Proof.
  eexists _, (py_max 0 (id <$> books self)).
  split; [reflexivity|]. split; [apply py_max_greatest|].
  split_and!; [done..|]. intros Hnil. cbn. by rewrite Hnil.
Qed.

Lemma add_book_spec_witness :
  books empty_shelf = []
  ∧ ∃ new_book m,
      add_book "Dune" "Herbert" 1965 empty_shelf
        = (new_book, mkLibraryManager (filename empty_shelf) (books empty_shelf ++ [new_book]))
      ∧ greatest_or 0 (id <$> books empty_shelf) m
      ∧ id new_book = m + 1
      ∧ title new_book = "Dune"
      ∧ author new_book = "Herbert"
      ∧ year new_book = 1965
      ∧ status new_book = "в наличии"
      ∧ id new_book = 1.
Proof.
  split; [reflexivity|].
  destruct (add_book_spec "Dune" "Herbert" 1965 empty_shelf)
    as (new_book & m & Hadd & Hm & Hid & Ht & Ha & Hy & Hs & Hone).
  exists new_book, m. split_and!; [assumption..|]. apply Hone. reflexivity.
Defined.

(** The new id is above every id of the store. *)
Lemma add_book_id_above (title' author' : string) (year' : Z) (self : LibraryManager) book :
  book ∈ books self → id book < id (add_book title' author' year' self).1.
Proof.
  intros Hb. cbn.
  destruct (py_max_greatest 0 (id <$> books self)) as [[Hnil _]|[_ Hmax]].
  - apply fmap_nil_inv in Hnil. rewrite Hnil in Hb. by apply elem_of_nil in Hb.
  - assert (id book ≤ py_max 0 (id <$> books self)); [|lia].
    apply Hmax. by apply list_elem_of_fmap_2.
Qed.

(** ** Finding the first record with an id *)

Lemma list_find_split {A} (P : A → Prop) `{!∀ x, Decision (P x)} (l : list A) i x :
  list_find P l = Some (i, x) →
  ∃ l1 l2, l = l1 ++ x :: l2 ∧ i = length l1 ∧ P x ∧ ∀ y, y ∈ l1 → ¬ P y.
Proof.
  intros (Hi & HP & Hfirst)%list_find_Some.
  destruct (list_elem_of_split_length _ _ _ Hi) as (l1 & l2 & -> & ->).
  exists l1, l2. split_and!; [done..|].
  intros y (j & Hj)%list_elem_of_lookup_1.
  apply (Hfirst j); [|by eapply lookup_lt_Some].
  by rewrite lookup_app_l by (by eapply lookup_lt_Some).
Qed.

Lemma list_find_id_None (book_id : Z) (bs : list Book) :
  (∀ book, book ∈ bs → id book ≠ book_id) →
  list_find (λ book, id book = book_id) bs = None.
Proof. intros Hno. apply list_find_None, Forall_forall. exact Hno. Qed.

Lemma list_find_id_Some (book_id : Z) (bs : list Book) :
  (∃ book, book ∈ bs ∧ id book = book_id) →
  ∃ before book after,
    bs = before ++ book :: after
    ∧ (∀ b, b ∈ before → id b ≠ book_id)
    ∧ id book = book_id
    ∧ list_find (λ book, id book = book_id) bs = Some (length before, book).
Proof.
  intros (b & Hb & Hid).
  destruct (list_find_elem_of (λ book, id book = book_id) bs b Hb Hid) as [[i x] Hfind].
  destruct (list_find_split _ _ _ _ Hfind) as (l1 & l2 & Hbs & -> & Hx & Hl1).
  exists l1, x, l2. by split_and!.
Qed.

(** ** Changing a status *)

(** C3. With an allowed status and an id that is in the store,
    [update_status] returns [True] and rewrites the status of the first
    record with that id; its other fields and all other records stay.
    With an unknown id, or a status that is not allowed, it returns
    [False] and the store is as it was. *)
Theorem update_status_spec (book_id : Z) (new_status : string) (self : LibraryManager) :
  (new_status ∈ statuses →
   (∃ book, book ∈ books self ∧ id book = book_id) →
   ∃ before book after,
     books self = before ++ book :: after
     ∧ (∀ b, b ∈ before → id b ≠ book_id)
     ∧ id book = book_id
     ∧ update_status book_id new_status self
       = (true,
          mkLibraryManager (filename self)
            (before
             ++ mkBook (id book) (title book) (author book) (year book) new_status
             :: after)))
  ∧ (new_status ∉ statuses ∨ (∀ book, book ∈ books self → id book ≠ book_id) →
     update_status book_id new_status self = (false, self)).
Proof.
  split.
  - intros Hst Hex.
    destruct (list_find_id_Some _ _ Hex) as (before & book & after & Hbs & Hbefore & Hid & Hfind).
    exists before, book, after. split_and!; [done..|].
    unfold update_status. rewrite bool_decide_eq_false_2 by (intros Hn; by apply Hn).
    rewrite Hfind, Hbs. unfold set_books. f_equal. f_equal.
    by rewrite alter_app_r_alt, Nat.sub_diag by lia.
  - intros [Hst | Hno]; unfold update_status.
    + by rewrite bool_decide_eq_true_2.
    + case_bool_decide; [done|]. by rewrite list_find_id_None.
Qed.

Lemma update_status_spec_witness :
  ("выдана" ∈ statuses
   ∧ (∃ book, book ∈ books shelf ∧ id book = 1)
   ∧ ∃ before book after,
       books shelf = before ++ book :: after
       ∧ (∀ b, b ∈ before → id b ≠ 1)
       ∧ id book = 1
       ∧ update_status 1 "выдана" shelf
         = (true,
            mkLibraryManager (filename shelf)
              (before
               ++ mkBook (id book) (title book) (author book) (year book) "выдана"
               :: after)))
  ∧ (("lost" ∉ statuses ∨ (∀ book, book ∈ books shelf → id book ≠ 1))
     ∧ update_status 1 "lost" shelf = (false, shelf)).
Proof.
  assert (H1 : "выдана" ∈ statuses) by (by vm_compute).
  assert (H2 : ∃ book, book ∈ books shelf ∧ id book = 1)
    by (exists dune; split; [left | reflexivity]).
  assert (H3 : "lost" ∉ statuses ∨ (∀ book, book ∈ books shelf → id book ≠ 1))
    by (left; by vm_compute).
  split.
  - split; [exact H1|]. split; [exact H2|].
    exact (proj1 (update_status_spec 1 "выдана" shelf) H1 H2).
  - split; [exact H3|].
    exact (proj2 (update_status_spec 1 "lost" shelf) H3).
Defined.

(** ** Removing *)

(** C4. When a record has the id, [remove_book] deletes the first such
    record and returns [True]: the collection is one shorter, the other
    records keep their order, and with unique ids the id is gone.  When
    no record has it, the store is as it was and the result is [False]. *)
Theorem remove_book_spec (book_id : Z) (self : LibraryManager) :
  ((∃ book, book ∈ books self ∧ id book = book_id) →
   ∃ before book after,
     books self = before ++ book :: after
     ∧ (∀ b, b ∈ before → id b ≠ book_id)
     ∧ id book = book_id
     ∧ remove_book book_id self
       = (true, mkLibraryManager (filename self) (before ++ after))
     ∧ S (length (before ++ after)) = length (books self)
     ∧ (NoDup (id <$> books self) → book_id ∉ id <$> (before ++ after)))
  ∧ ((∀ book, book ∈ books self → id book ≠ book_id) →
     remove_book book_id self = (false, self)).
Proof.
  split.
  - intros Hex.
    destruct (list_find_id_Some _ _ Hex) as (before & book & after & Hbs & Hbefore & Hid & Hfind).
    exists before, book, after. split_and!; [done..| | |].
    + unfold remove_book. rewrite Hfind, Hbs. unfold set_books.
      by rewrite delete_middle.
    + rewrite Hbs, !length_app. cbn. lia.
    + rewrite Hbs, !fmap_app, fmap_cons, Hid.
      intros (_ & Hnot & Hnd)%NoDup_app [Hin|Hin]%elem_of_app.
      * apply (Hnot _ Hin). by left.
      * by apply NoDup_cons in Hnd as [? _].
  - intros Hno. unfold remove_book. by rewrite list_find_id_None.
Qed.

Lemma remove_book_spec_witness :
  ((∃ book, book ∈ books shelf ∧ id book = 2)
   ∧ ∃ before book after,
       books shelf = before ++ book :: after
       ∧ (∀ b, b ∈ before → id b ≠ 2)
       ∧ id book = 2
       ∧ remove_book 2 shelf
         = (true, mkLibraryManager (filename shelf) (before ++ after))
       ∧ S (length (before ++ after)) = length (books shelf)
       ∧ (NoDup (id <$> books shelf) → 2 ∉ id <$> (before ++ after)))
  ∧ ((∀ book, book ∈ books shelf → id book ≠ 7)
     ∧ remove_book 7 shelf = (false, shelf)).
Proof.
  assert (H1 : ∃ book, book ∈ books shelf ∧ id book = 2)
    by (exists emma; split; [right; left | reflexivity]).
  assert (H2 : ∀ book, book ∈ books shelf → id book ≠ 7).
  { intros book Hin. cbn in Hin.
    apply elem_of_cons in Hin as [->|Hin]; [done|].
    apply elem_of_cons in Hin as [->|Hin]; [done|].
    by apply elem_of_nil in Hin. }
  split.
  - split; [exact H1|]. exact (proj1 (remove_book_spec 2 shelf) H1).
  - split; [exact H2|]. exact (proj2 (remove_book_spec 7 shelf) H2).
Defined.

(** ** Substrings *)

Lemma append_cons (c : Ascii.ascii) (s t : string) :
  String c s +:+ t = String c (s +:+ t).
Proof. reflexivity. Qed.

Lemma startswith_spec (s prefix : string) :
  startswith s prefix = true ↔ ∃ rest, s = prefix +:+ rest.
Proof.
  revert s. induction prefix as [|a prefix IH]; intros s; cbn.
  - split; [intros _; by exists s | done].
  - destruct s as [|b s]; [split; [done | by intros [rest ?]]|].
    case_bool_decide as Hab.
    + subst b. rewrite IH.
      split; intros [rest Hrest]; exists rest; rewrite append_cons in *; congruence.
    + split; [done | intros [rest Hrest]; rewrite append_cons in Hrest; congruence].
Qed.

Lemma py_in_unfold (needle hay : string) :
  py_in needle hay =
    if startswith hay needle then true
    else match hay with "" => false | String _ hay' => py_in needle hay' end.
Proof. by destruct hay. Qed.

Lemma py_in_spec (needle hay : string) :
  py_in needle hay = true ↔ substring needle hay.
Proof.
  split.
  - induction hay as [|c hay IH]; rewrite py_in_unfold;
      destruct (startswith _ needle) eqn:Hstart.
    + intros _. apply startswith_spec in Hstart as [rest ->]. by exists "", rest.
    + done.
    + intros _. apply startswith_spec in Hstart as [rest ->]. by exists "", rest.
    + intros (before & after & ->)%IH. by exists (String c before), after.
  - intros (before & after & ->).
    induction before as [|c before IH]; rewrite py_in_unfold.
    + rewrite (proj2 (startswith_spec _ needle)); [done|]. by exists after.
    + rewrite append_cons. by destruct (startswith _ needle).
Qed.

Lemma py_in_empty (hay : string) : py_in "" hay = true.
Proof. apply py_in_spec. by exists "", hay. Qed.

(** ** Selections *)

Lemma selects_filter {A} (P : A → Prop) `{!∀ x, Decision (P x)} (l : list A) :
  selects P l (filter P l).
Proof.
  induction l as [|x l IH]; [constructor|].
  destruct (decide (P x)).
  - rewrite filter_cons_True by done. by constructor.
  - rewrite filter_cons_False by done. by constructor.
Qed.

Lemma selects_iff {A} (P Q : A → Prop) (l found : list A) :
  (∀ x, P x ↔ Q x) → selects P l found → selects Q l found.
Proof.
  intros HPQ. induction 1; constructor; rewrite <-?HPQ; done.
Qed.

(** A selection is determined by the list and the property. *)
Lemma selects_unique {A} (P : A → Prop) (l found1 found2 : list A) :
  selects P l found1 → selects P l found2 → found1 = found2.
Proof.
  intros H1. revert found2.
  induction H1 as [|x l f1 HP _ IH|x l f1 HP _ IH]; intros found2 H2;
    inversion H2; subst; try done.
  - f_equal. by apply IH.
  - by apply IH.
Qed.

Lemma filter_all {A} (P : A → Prop) `{!∀ x, Decision (P x)} (l : list A) :
  (∀ x, x ∈ l → P x) → filter P l = l.
Proof.
  induction l as [|x l IH]; intros HP; [done|].
  rewrite filter_cons_True by (apply HP; left).
  f_equal. apply IH. intros y Hy. apply HP. by right.
Qed.

(** ** Searching *)

Section SearchProperties.

Variable lower : string → string.

Lemma search_books_key (query key : string) (self : LibraryManager) :
  key ∈ search_keys →
  search_books lower query key self
    = (filter (λ book, py_in (lower query) (lower (getattr_str book key)) = true)
         (books self), self).
Proof.
  intros Hkey. unfold search_books.
  by rewrite bool_decide_eq_false_2 by (intros Hn; by apply Hn).
Qed.

Lemma search_books_selects (query key : string) (self : LibraryManager) :
  key ∈ search_keys →
  ∃ found,
    search_books lower query key self = (found, self)
    ∧ selects (λ book, ci_substring lower query (getattr_str book key))
        (books self) found.
Proof.
  intros Hkey. eexists. split; [by apply search_books_key|].
  eapply selects_iff; [|apply selects_filter; apply _].
  intros book. apply py_in_spec.
Qed.

(** C5. With a field name other than the three, [search_books] returns
    the empty list.  With one of the three it returns exactly the records
    whose title, author or year in decimal holds the query when case is
    ignored, in the order of the collection.  The store stays as it was. *)
Theorem search_books_spec (query key : string) (self : LibraryManager) :
  (key ≠ "title" → key ≠ "author" → key ≠ "year" →
   search_books lower query key self = ([], self))
  ∧ (key = "title" →
     ∃ found,
       search_books lower query key self = (found, self)
       ∧ selects (λ book, ci_substring lower query (title book)) (books self) found)
  ∧ (key = "author" →
     ∃ found,
       search_books lower query key self = (found, self)
       ∧ selects (λ book, ci_substring lower query (author book)) (books self) found)
  ∧ (key = "year" →
     ∃ found,
       search_books lower query key self = (found, self)
       ∧ selects (λ book, ci_substring lower query (str_int (year book)))
           (books self) found).
Proof.
  split_and!.
  - intros Ht Ha Hy. unfold search_books, search_keys.
    rewrite bool_decide_eq_true_2; [done|].
    rewrite !elem_of_union, !elem_of_singleton. tauto.
  - intros ->. apply (search_books_selects query "title" self). by vm_compute.
  - intros ->. apply (search_books_selects query "author" self). by vm_compute.
  - intros ->. apply (search_books_selects query "year" self). by vm_compute.
Qed.

(** C10. With a valid field name and the empty query, [search_books]
    returns the whole collection in its order: the empty string occurs in
    every text. *)
Theorem search_books_empty_query (key : string) (self : LibraryManager) :
  lower "" = "" →
  key = "title" ∨ key = "author" ∨ key = "year" →
  search_books lower "" key self = (books self, self).
Proof.
  intros Hlower Hkey.
  rewrite search_books_key by (destruct Hkey as [->|[->| ->]]; by vm_compute).
  f_equal. apply filter_all. intros book _. rewrite Hlower. apply py_in_empty.
Qed.

(** When a record matches, the search branch prints what
    [display_books] prints. *)
Lemma main_search_found (key query : string) (self : LibraryManager) :
  (search_books lower query key self).1 ≠ [] →
  main_search lower key query self = display_books self.
Proof. unfold main_search. by destruct (search_books lower query key self).1. Qed.

Lemma main_search_none (key query : string) (self : LibraryManager) :
  (search_books lower query key self).1 = [] →
  main_search lower key query self = ["Книги не найдены."].
Proof. unfold main_search. by intros ->. Qed.

End SearchProperties.

Lemma search_books_spec_witness :
  ("isbn" ≠ "title" ∧ "isbn" ≠ "author" ∧ "isbn" ≠ "year"
   ∧ search_books ascii_lower "dune" "isbn" shelf = ([], shelf))
  ∧ ("title" = "title"
     ∧ ∃ found,
         search_books ascii_lower "DUNE" "title" shelf = (found, shelf)
         ∧ selects (λ book, ci_substring ascii_lower "DUNE" (title book))
             (books shelf) found)
  ∧ ("author" = "author"
     ∧ ∃ found,
         search_books ascii_lower "aus" "author" shelf = (found, shelf)
         ∧ selects (λ book, ci_substring ascii_lower "aus" (author book))
             (books shelf) found)
  ∧ ("year" = "year"
     ∧ ∃ found,
         search_books ascii_lower "19" "year" shelf = (found, shelf)
         ∧ selects (λ book, ci_substring ascii_lower "19" (str_int (year book)))
             (books shelf) found).
Proof.
  assert (Ht : "isbn" ≠ "title") by done.
  assert (Ha : "isbn" ≠ "author") by done.
  assert (Hy : "isbn" ≠ "year") by done.
  split; [|split; [|split]].
  - exact (conj Ht (conj Ha (conj Hy
             (proj1 (search_books_spec ascii_lower "dune" "isbn" shelf) Ht Ha Hy)))).
  - exact (conj eq_refl
             (proj1 (proj2 (search_books_spec ascii_lower "DUNE" "title" shelf)) eq_refl)).
  - exact (conj eq_refl
             (proj1 (proj2 (proj2 (search_books_spec ascii_lower "aus" "author" shelf)))
                eq_refl)).
  - exact (conj eq_refl
             (proj2 (proj2 (proj2 (search_books_spec ascii_lower "19" "year" shelf)))
                eq_refl)).
Defined.

Lemma search_books_empty_query_witness :
  ascii_lower "" = ""
  ∧ ("year" = "title" ∨ "year" = "author" ∨ "year" = "year")
  ∧ search_books ascii_lower "" "year" shelf = (books shelf, shelf).
Proof.
  split; [reflexivity|].
  split; [right; right; reflexivity|].
  apply (search_books_empty_query ascii_lower "year" shelf);
    [reflexivity | right; right; reflexivity].
Defined.

(** C9. On a store of two books of which one matches, the search branch
    prints both: it calls [display_books], which walks [self.books], not
    the list it has just found. *)
Theorem main_search_prints_every_book :
  (search_books ascii_lower "dune" "title" shelf).1 = [dune]
  ∧ main_search ascii_lower "title" "dune" shelf
    = ["Список книг:"; book_line dune; book_line emma]
  ∧ ¬ prints_matches ascii_lower "title" "dune" shelf.
Proof.
  split; [by vm_compute|]. split; [by vm_compute|].
  unfold prints_matches. vm_compute. intros H. discriminate H.
Qed.

(** ** The invariant of the store *)

Lemma remove_book_cases (book_id : Z) (self : LibraryManager) :
  (∃ before book after,
     books self = before ++ book :: after
     ∧ remove_book book_id self
       = (true, mkLibraryManager (filename self) (before ++ after)))
  ∨ remove_book book_id self = (false, self).
Proof.
  unfold remove_book.
  destruct (list_find _ (books self)) as [[i book]|] eqn:Hfind; [left | by right].
  destruct (list_find_split _ _ _ _ Hfind) as (before & after & Hbs & -> & _).
  exists before, book, after. split; [done|].
  unfold set_books. by rewrite Hbs, delete_middle.
Qed.

Lemma update_status_cases (book_id : Z) (new_status : string) (self : LibraryManager) :
  (∃ before book after,
     new_status ∈ statuses
     ∧ books self = before ++ book :: after
     ∧ update_status book_id new_status self
       = (true,
          mkLibraryManager (filename self)
            (before ++ set_status new_status book :: after)))
  ∨ update_status book_id new_status self = (false, self).
Proof.
  unfold update_status. case_bool_decide as Hst; [by right|].
  destruct (list_find _ (books self)) as [[i book]|] eqn:Hfind; [left | by right].
  destruct (list_find_split _ _ _ _ Hfind) as (before & after & Hbs & -> & _).
  exists before, book, after. split; [done|]. split; [done|].
  unfold set_books. by rewrite Hbs, alter_app_r_alt, Nat.sub_diag by lia.
Qed.

Lemma store_invariant_nil : store_invariant [].
Proof. split; constructor. Qed.

Lemma store_invariant_add (title' author' : string) (year' : Z) (self : LibraryManager) :
  store_invariant (books self) →
  store_invariant (books (add_book title' author' year' self).2).
Proof.
  intros [Hnd Hst]. split; cbn [add_book snd set_books books].
  - rewrite fmap_app. apply NoDup_app. split_and!; [done| |apply NoDup_singleton].
    intros x (b & -> & Hb)%list_elem_of_fmap Hx%list_elem_of_singleton.
    pose proof (add_book_id_above title' author' year' self b Hb) as Hlt.
    cbn in Hlt, Hx. lia.
  - apply Forall_app. split; [done|]. apply Forall_singleton. by vm_compute.
Qed.

Lemma store_invariant_remove (book_id : Z) (self : LibraryManager) :
  store_invariant (books self) →
  store_invariant (books (remove_book book_id self).2).
Proof.
  intros [Hnd Hst].
  destruct (remove_book_cases book_id self)
    as [(before & book & after & Hbs & ->)| ->]; [|done].
  cbn. rewrite Hbs in Hnd, Hst. split.
  - rewrite fmap_app, fmap_cons in Hnd. rewrite fmap_app.
    apply NoDup_app in Hnd as (Hb & Hdisj & Ha).
    apply NoDup_cons in Ha as [_ Ha].
    apply NoDup_app. split_and!; [done| |done].
    intros x Hx Hx'. apply (Hdisj x Hx). by right.
  - apply Forall_app in Hst as [Hb Ha]. apply Forall_cons in Ha as [_ Ha].
    by apply Forall_app.
Qed.

Lemma store_invariant_update (book_id : Z) (new_status : string) (self : LibraryManager) :
  store_invariant (books self) →
  store_invariant (books (update_status book_id new_status self).2).
Proof.
  intros [Hnd Hst].
  destruct (update_status_cases book_id new_status self)
    as [(before & book & after & Hnew & Hbs & ->)| ->]; [|done].
  cbn [snd books]. rewrite Hbs in Hnd, Hst. split.
  - by rewrite fmap_app, fmap_cons in *.
  - apply Forall_app in Hst as [Hb Ha]. apply Forall_cons in Ha as [_ Ha].
    apply Forall_app. split; [done|]. by apply Forall_cons.
Qed.

Lemma search_books_store (lower : string → string) (query key : string)
    (self : LibraryManager) :
  (search_books lower query key self).2 = self.
Proof. unfold search_books. by case_bool_decide. Qed.

Lemma store_invariant_exec (lower : string → string) (c : command)
    (self : LibraryManager) :
  store_invariant (books self) →
  store_invariant (books (exec lower c self).2).
Proof.
  intros Hinv. destruct c as [t a y|i|q k|i st|]; cbn [exec snd].
  - by apply store_invariant_add.
  - by apply store_invariant_remove.
  - by rewrite search_books_store.
  - by apply store_invariant_update.
  - done.
Qed.

(** C6, as the code has it.  Every call keeps the invariant: from a store
    with unique ids and allowed statuses, any sequence of adding,
    removing, searching, changing a status and listing leads to such a
    store. *)
Theorem store_invariant_run (lower : string → string) (cmds : list command)
    (self : LibraryManager) :
  store_invariant (books self) →
  store_invariant (books (run lower cmds self).2).
Proof.
  revert self. induction cmds as [|c cmds IH]; intros self Hinv; [done|].
  cbn [run snd]. apply IH. by apply store_invariant_exec.
Qed.

Lemma store_invariant_run_witness :
  store_invariant (books empty_shelf)
  ∧ store_invariant
      (books (run ascii_lower
                [CAdd "Dune" "Herbert" 1965; CAdd "Emma" "Austen" 1815;
                 CUpdate 2 "выдана"; CSearch "e" "title"; CRemove 1; CDisplay;
                 CAdd "Solaris" "Lem" 1961]
                empty_shelf).2).
Proof.
  split; [exact store_invariant_nil|].
  exact (store_invariant_run ascii_lower _ empty_shelf store_invariant_nil).
Defined.

(** The store that a missing or malformed file gives has the invariant. *)
Lemma init_missing_or_malformed (filename : string) (fs : gmap string file) :
  fs !! filename = None ∨ (∃ text, fs !! filename = Some (Malformed text)) →
  LibraryManager_init filename fs = Return (mkLibraryManager filename []).
Proof.
  intros [Hnone | [text Hbad]];
    unfold LibraryManager_init, _load_from_file, open_r.
  - by rewrite Hnone.
  - by rewrite Hbad.
Qed.

(** Counterexample to C6: a file with a repeated id and an
    unknown status is loaded as it is, and the store it gives is
    reachable with no call at all. *)
Lemma load_breaks_store_invariant :
  LibraryManager_init "books.json" {[ "books.json" := twin_file ]} = Return twin_shelf
  ∧ reachable ascii_lower twin_shelf
  ∧ ¬ NoDup (id <$> books twin_shelf)
  ∧ ¬ Forall (λ b, status b ∈ statuses) (books twin_shelf)
  ∧ ¬ store_invariant (books twin_shelf).
Proof.
  assert (Hload : LibraryManager_init "books.json" {[ "books.json" := twin_file ]}
                  = Return twin_shelf) by (by vm_compute).
  assert (Hdup : ¬ NoDup (id <$> books twin_shelf)).
  { cbn. intros [Hnot _]%NoDup_cons. apply Hnot. by left. }
  split_and!; [done| |done| |].
  - by exists "books.json", {[ "books.json" := twin_file ]}, twin_shelf, [].
  - cbn. intros [_ Hrest]%Forall_cons_1. apply Forall_cons_1 in Hrest as [Hlost _].
    revert Hlost. unfold statuses. rewrite elem_of_union, !elem_of_singleton.
    by intros [?|?].
  - by intros [Hnd _].
Qed.

(** ** Ids over a sequence of calls *)

(** The answer at position [q] is the answer of call [q] on the store the
    calls before it left. *)
Lemma run_lookup (lower : string → string) (cmds : list command)
    (self : LibraryManager) (q : nat) (r : response) :
  (run lower cmds self).1 !! q = Some r →
  ∃ c, cmds !! q = Some c ∧ r = (exec lower c (run lower (take q cmds) self).2).1.
Proof.
  revert self q. induction cmds as [|c cmds IH]; intros self q Hr; [done|].
  destruct q as [|q]; cbn in Hr.
  - exists c. split; [done|]. by injection Hr as <-.
  - apply IH in Hr as (c' & Hc' & ->). by exists c'.
Qed.

Lemma exec_book (lower : string → string) (c : command) (self : LibraryManager)
    (book : Book) :
  (exec lower c self).1 = RBook book →
  ∃ title' author' year', book = (add_book title' author' year' self).1.
Proof.
  destruct c; cbn [exec fst]; intros Hr; try discriminate Hr.
  injection Hr as <-. eauto.
Qed.

(** C8, as the code has it.  In every sequence of calls an [add_book]
    hands out the greatest id of the store at that time (0 for the empty
    store) plus one, whatever was removed before.  So it hands out an id
    [i], and in particular one that an earlier call removed, exactly when
    that greatest id is [i - 1]; it does not while the store holds a
    record whose id is at least [i]. *)
Theorem add_id_after_removal (lower : string → string)
    (cmds : list command) (self : LibraryManager) (q : nat) (book : Book) :
  (run lower cmds self).1 !! q = Some (RBook book) →
  (∃ m, greatest_or 0 (id <$> books (run lower (take q cmds) self).2) m
        ∧ id book = m + 1)
  ∧ (∀ i, id book = i ↔
          greatest_or 0 (id <$> books (run lower (take q cmds) self).2) (i - 1))
  ∧ (∀ (p : nat) i,
       (p < q)%nat →
       cmds !! p = Some (CRemove i) →
       (run lower cmds self).1 !! p = Some (RBool true) →
       (id book = i ↔
        greatest_or 0 (id <$> books (run lower (take q cmds) self).2) (i - 1))
       ∧ ((∃ b, b ∈ books (run lower (take q cmds) self).2 ∧ i ≤ id b) →
          id book ≠ i)).
Proof.
  intros Hq. apply run_lookup in Hq as (c & _ & Hr).
  symmetry in Hr. apply exec_book in Hr as (t & a & y & ->).
  set (store := (run lower (take q cmds) self).2).
  pose proof (py_max_greatest 0 (id <$> books store)) as Hmax.
  assert (Hiff : ∀ i, id (add_book t a y store).1 = i ↔
                      greatest_or 0 (id <$> books store) (i - 1)).
  { intros i. cbn. split.
    - intros <-. by replace (py_max 0 (id <$> books store) + 1 - 1)
        with (py_max 0 (id <$> books store)) by lia.
    - intros Hi. pose proof (greatest_or_unique _ _ _ _ Hmax Hi). lia. }
  split_and!; [by eexists | done |].
  intros p i _ _ _. split; [done|].
  intros (b & Hb & Hle). pose proof (add_book_id_above t a y store b Hb). lia.
Qed.

Lemma add_id_after_removal_witness :
  (run ascii_lower later_add shelf).1 !! 2%nat
    = Some (RBook (mkBook 4 "Ubik" "Dick" 1969 "в наличии"))
  ∧ (∃ m, greatest_or 0 (id <$> books (run ascii_lower (take 2 later_add) shelf).2) m
          ∧ id (mkBook 4 "Ubik" "Dick" 1969 "в наличии") = m + 1)
  ∧ (∀ i, id (mkBook 4 "Ubik" "Dick" 1969 "в наличии") = i ↔
          greatest_or 0 (id <$> books (run ascii_lower (take 2 later_add) shelf).2) (i - 1))
  ∧ (∀ (p : nat) i,
       (p < 2)%nat →
       later_add !! p = Some (CRemove i) →
       (run ascii_lower later_add shelf).1 !! p = Some (RBool true) →
       (id (mkBook 4 "Ubik" "Dick" 1969 "в наличии") = i ↔
        greatest_or 0 (id <$> books (run ascii_lower (take 2 later_add) shelf).2) (i - 1))
       ∧ ((∃ b, b ∈ books (run ascii_lower (take 2 later_add) shelf).2 ∧ i ≤ id b) →
          id (mkBook 4 "Ubik" "Dick" 1969 "в наличии") ≠ i)).
Proof.
  assert (H : (run ascii_lower later_add shelf).1 !! 2%nat
              = Some (RBook (mkBook 4 "Ubik" "Dick" 1969 "в наличии")))
    by reflexivity.
  split; [exact H|].
  exact (add_id_after_removal ascii_lower later_add shelf 2
           (mkBook 4 "Ubik" "Dick" 1969 "в наличии") H).
Defined.

(** Counterexample to C8: after the only record is removed,
    the next [add_book] hands out its id again. *)
Lemma removed_id_reused :
  (run ascii_lower
     [CAdd "Dune" "Herbert" 1965; CRemove 1; CAdd "Emma" "Austen" 1815]
     empty_shelf).1
  = [RBook (mkBook 1 "Dune" "Herbert" 1965 "в наличии"); RBool true;
     RBook (mkBook 1 "Emma" "Austen" 1815 "в наличии")]
  ∧ ¬ never_reused ascii_lower empty_shelf
        [CAdd "Dune" "Herbert" 1965; CRemove 1; CAdd "Emma" "Austen" 1815].
Proof.
  split; [reflexivity|].
  intros Hclaim.
  apply (Hclaim 1%nat 2%nat 1 (mkBook 1 "Emma" "Austen" 1815 "в наличии"));
    [lia | reflexivity..].
Qed.

(** * Further properties of the code *)

(** ** [Book.from_dict] *)

Lemma from_dict_obj (members : gmap string json) :
  from_dict (JObj members) =
    match members !! "id", members !! "title", members !! "author",
          members !! "year", members !! "status" with
    | Some v_id, Some v_title, Some v_author, Some v_year, Some v_status =>
        book_id ← as_int v_id;
        title ← as_str v_title;
        author ← as_str v_author;
        year ← as_int v_year;
        status ← as_str v_status;
        Return (mkBook book_id title author year status)
    | _, _, _, _, _ => Raise KeyError
    end.
Proof.
  unfold from_dict, getitem.
  destruct (members !! "id"); [|done]. destruct (members !! "title"); [|done].
  destruct (members !! "author"); [|done]. destruct (members !! "year"); [|done].
  by destruct (members !! "status").
Qed.

(** Once the five values are there, building the record raises nothing. *)
Lemma typed_fields_no_raise (v_id v_title v_author v_year v_status : json) (e : exn) :
  (book_id ← as_int v_id;
   title ← as_str v_title;
   author ← as_str v_author;
   year ← as_int v_year;
   status ← as_str v_status;
   Return (mkBook book_id title author year status)) ≠ Raise e.
Proof.
  destruct v_id; try done. destruct v_title; try done.
  destruct v_author; try done. destruct v_year; try done.
  by destruct v_status.
Qed.

Lemma typed_fields_return (v_id v_title v_author v_year v_status : json) (book : Book) :
  (book_id ← as_int v_id;
   title ← as_str v_title;
   author ← as_str v_author;
   year ← as_int v_year;
   status ← as_str v_status;
   Return (mkBook book_id title author year status)) = Return book ↔
  v_id = JInt (id book) ∧ v_title = JStr (title book) ∧ v_author = JStr (author book)
  ∧ v_year = JInt (year book) ∧ v_status = JStr (status book).
Proof.
  split.
  - destruct v_id; try done. destruct v_title; try done.
    destruct v_author; try done. destruct v_year; try done.
    destruct v_status; try done. cbn. by intros [= <-].
  - intros (-> & -> & -> & -> & ->). by destruct book.
Qed.

Lemma from_dict_raise_cases (data : json) (e : exn) :
  from_dict data = Raise e → e = KeyError ∨ e = TypeError.
Proof.
  destruct data as [| | | | | |members]; try (intros [= <-]; by right).
  rewrite from_dict_obj.
  destruct (members !! "id"); [|intros [= <-]; by left].
  destruct (members !! "title"); [|intros [= <-]; by left].
  destruct (members !! "author"); [|intros [= <-]; by left].
  destruct (members !! "year"); [|intros [= <-]; by left].
  destruct (members !! "status"); [|intros [= <-]; by left].
  intros H. by apply typed_fields_no_raise in H.
Qed.

(** X1. [from_dict] raises [TypeError] exactly on a value that is not a
    dict, and [KeyError] exactly on a dict that lacks one of the five
    keys. *)
Theorem from_dict_raises (data : json) :
  (from_dict data = Raise TypeError ↔ ∀ members, data ≠ JObj members)
  ∧ (from_dict data = Raise KeyError ↔
     ∃ members key, data = JObj members ∧ key ∈ book_keys ∧ members !! key = None).
Proof.
  destruct data as [| | | | | |members];
    try (split; [split; [done | by intros _] | split; [done | by intros (? & ? & ? & _)]]).
  rewrite from_dict_obj. split.
  - split; [|intros H; by destruct (H members)].
    destruct (members !! "id"); [|done]. destruct (members !! "title"); [|done].
    destruct (members !! "author"); [|done]. destruct (members !! "year"); [|done].
    destruct (members !! "status"); [|done].
    intros H. by apply typed_fields_no_raise in H.
  - split.
    + intros H. exists members.
      destruct (members !! "id") eqn:H1;
        [|exists "id"; split_and!; [done | unfold book_keys; set_solver | done]].
      destruct (members !! "title") eqn:H2;
        [|exists "title"; split_and!; [done | unfold book_keys; set_solver | done]].
      destruct (members !! "author") eqn:H3;
        [|exists "author"; split_and!; [done | unfold book_keys; set_solver | done]].
      destruct (members !! "year") eqn:H4;
        [|exists "year"; split_and!; [done | unfold book_keys; set_solver | done]].
      destruct (members !! "status") eqn:H5;
        [|exists "status"; split_and!; [done | unfold book_keys; set_solver | done]].
      by apply typed_fields_no_raise in H.
    + intros (members' & key & [= <-] & Hkey & Hnone).
      unfold book_keys in Hkey.
      repeat (apply elem_of_cons in Hkey as [->|Hkey];
              [rewrite Hnone; by repeat case_match|]).
      by apply elem_of_nil in Hkey.
Qed.

(** X2. [from_dict] reads the five keys and nothing else: two dicts that
    agree on them give the same outcome. *)
Theorem from_dict_other_keys (members members' : gmap string json) :
  (∀ key, key ∈ book_keys → members !! key = members' !! key) →
  from_dict (JObj members) = from_dict (JObj members').
Proof.
  intros Hsame. rewrite !from_dict_obj.
  by rewrite !Hsame by (unfold book_keys; set_solver).
Qed.

Lemma from_dict_other_keys_witness :
  (∀ key, key ∈ book_keys →
     ({[ "id" := JInt 1; "title" := JStr "Dune"; "author" := JStr "Herbert";
         "year" := JInt 1965; "status" := JStr "выдана";
         "isbn" := JStr "0441172717" ]} : gmap string json) !! key
     = ({[ "id" := JInt 1; "title" := JStr "Dune"; "author" := JStr "Herbert";
           "year" := JInt 1965; "status" := JStr "выдана";
           "shelf" := JInt 3 ]} : gmap string json) !! key)
  ∧ from_dict (JObj {[ "id" := JInt 1; "title" := JStr "Dune"; "author" := JStr "Herbert";
                       "year" := JInt 1965; "status" := JStr "выдана";
                       "isbn" := JStr "0441172717" ]})
    = from_dict (JObj {[ "id" := JInt 1; "title" := JStr "Dune"; "author" := JStr "Herbert";
                         "year" := JInt 1965; "status" := JStr "выдана";
                         "shelf" := JInt 3 ]}).
Proof.
  assert (H : ∀ key, key ∈ book_keys →
     ({[ "id" := JInt 1; "title" := JStr "Dune"; "author" := JStr "Herbert";
         "year" := JInt 1965; "status" := JStr "выдана";
         "isbn" := JStr "0441172717" ]} : gmap string json) !! key
     = ({[ "id" := JInt 1; "title" := JStr "Dune"; "author" := JStr "Herbert";
           "year" := JInt 1965; "status" := JStr "выдана";
           "shelf" := JInt 3 ]} : gmap string json) !! key).
  { intros key Hkey. unfold book_keys in Hkey.
    repeat (apply elem_of_cons in Hkey as [->|Hkey]; [reflexivity|]).
    by apply elem_of_nil in Hkey. }
  split; [exact H|]. exact (from_dict_other_keys _ _ H).
Defined.

(** X3. [from_dict] returns a record exactly when its argument is a dict
    that holds the five entries [to_dict] writes for that record; what
    else the dict holds does not matter. *)
Theorem from_dict_return (data : json) (book : Book) :
  from_dict data = Return book ↔
  ∃ members,
    data = JObj members
    ∧ members !! "id" = Some (JInt (id book))
    ∧ members !! "title" = Some (JStr (title book))
    ∧ members !! "author" = Some (JStr (author book))
    ∧ members !! "year" = Some (JInt (year book))
    ∧ members !! "status" = Some (JStr (status book)).
Proof.
  split.
  - destruct data as [| | | | | |members]; try done.
    rewrite from_dict_obj. intros H. exists members.
    destruct (members !! "id"); [|done]. destruct (members !! "title"); [|done].
    destruct (members !! "author"); [|done]. destruct (members !! "year"); [|done].
    destruct (members !! "status"); [|done].
    apply typed_fields_return in H as (-> & -> & -> & -> & ->). done.
  - intros (members & -> & H1 & H2 & H3 & H4 & H5).
    rewrite from_dict_obj, H1, H2, H3, H4, H5. by apply typed_fields_return.
Qed.

(** ** [_load_from_file] *)

Lemma comprehension_Return {A B} (f : A → outcome B) (items : list A) (ys : list B) :
  comprehension f items = Return ys ↔ Forall2 (λ x y, f x = Return y) items ys.
Proof.
  revert ys. induction items as [|x items IH]; intros ys; cbn [comprehension].
  - split; [intros [= <-]; constructor | by inversion 1].
  - split.
    + destruct (f x) as [y| |] eqn:Hx; try done. cbn.
      destruct (comprehension f items) as [ys'| |] eqn:Hrest; try done. cbn.
      intros [= <-]. constructor; [done|]. by apply IH.
    + inversion 1 as [|? y ? ys' Hx Hrest]; subst.
      rewrite Hx. cbn. apply IH in Hrest. by rewrite Hrest.
Qed.

Lemma comprehension_raise {A B} (f : A → outcome B) (items : list A) (e : exn) :
  comprehension f items = Raise e → ∃ x, x ∈ items ∧ f x = Raise e.
Proof.
  induction items as [|x items IH]; cbn [comprehension]; [done|].
  destruct (f x) as [y| |] eqn:Hx; cbn.
  - destruct (comprehension f items) as [ys'| |] eqn:Hrest; try done. cbn.
    intros [= <-]. destruct IH as (x' & Hin & Hx'); [done|].
    exists x'. split; [by right | done].
  - intros [= <-]. exists x. split; [by left | done].
  - done.
Qed.

Lemma load_body_raise (doc : json) (e : exn) :
  (items ← iterate doc; comprehension from_dict items) = Raise e →
  e = KeyError ∨ e = TypeError.
Proof.
  destruct (iterate doc) as [items| |] eqn:Hit; cbn.
  - intros (x & _ & Hx)%comprehension_raise. by eapply from_dict_raise_cases.
  - intros [= <-]. destruct doc; try done; cbn in Hit; injection Hit as <-; by right.
  - done.
Qed.

Lemma load_document (filename : string) (fs : gmap string file) (doc : json) :
  fs !! filename = Some (Document doc) →
  _load_from_file filename fs = (items ← iterate doc; comprehension from_dict items).
Proof.
  intros Hfile. unfold _load_from_file, open_r. rewrite Hfile.
  cbn [mbind outcome_bind json_load].
  pose proof (load_body_raise doc) as Hraise.
  destruct (items ← iterate doc; comprehension from_dict items) as [bs|e|];
    [done| |done].
  by destruct (Hraise e eq_refl) as [-> | ->].
Qed.

(** X5. When the file holds a JSON array, the load returns a list exactly
    when every item converts: the records are the items' records, one for
    one and in the same order; it never returns a part of the array. *)
Theorem load_array (filename : string) (fs : gmap string file)
    (items : list json) (bs : list Book) :
  fs !! filename = Some (Document (JArr items)) →
  _load_from_file filename fs = Return bs ↔
  Forall2 (λ item book, from_dict item = Return book) items bs.
Proof.
  intros Hfile. rewrite (load_document _ _ _ Hfile). cbn.
  apply comprehension_Return.
Qed.

Lemma load_array_witness :
  ({[ "books.json" := twin_file ]} : gmap string file) !! "books.json"
    = Some (Document (JArr [to_dict dune; to_dict lost_emma]))
  ∧ (_load_from_file "books.json" {[ "books.json" := twin_file ]} = Return [dune; lost_emma] ↔
     Forall2 (λ item book, from_dict item = Return book)
       [to_dict dune; to_dict lost_emma] [dune; lost_emma]).
Proof.
  split; [reflexivity|].
  exact (load_array "books.json" {[ "books.json" := twin_file ]}
           [to_dict dune; to_dict lost_emma] [dune; lost_emma] eq_refl).
Defined.

(** X6. A JSON document that is not an array: the empty object and the
    empty string load as the empty collection, every other value makes
    the load raise [TypeError]. *)
Theorem load_not_array (filename : string) (fs : gmap string file) (doc : json) :
  fs !! filename = Some (Document doc) →
  (∀ items, doc ≠ JArr items) →
  (doc = JObj ∅ ∨ doc = JStr "" → _load_from_file filename fs = Return [])
  ∧ (doc ≠ JObj ∅ → doc ≠ JStr "" → _load_from_file filename fs = Raise TypeError).
Proof.
  intros Hfile Hnot. rewrite (load_document _ _ _ Hfile). split.
  - intros [-> | ->]; cbn; [|done]. by rewrite map_to_list_empty.
  - intros Hobj Hstr.
    destruct doc as [| | | |s|items|members]; cbn [iterate mbind outcome_bind]; try done.
    + by destruct s.
    + by destruct (Hnot items).
    + destruct (map_to_list members) as [|[key v] rest] eqn:Hlist; [|done].
      by apply map_to_list_empty_iff in Hlist as ->.
Qed.

Lemma load_not_array_witness :
  ({[ "books.json" := Document (JInt 7) ]} : gmap string file) !! "books.json"
    = Some (Document (JInt 7))
  ∧ (∀ items, JInt 7 ≠ JArr items)
  ∧ (JInt 7 = JObj ∅ ∨ JInt 7 = JStr "" →
     _load_from_file "books.json" {[ "books.json" := Document (JInt 7) ]} = Return [])
  ∧ (JInt 7 ≠ JObj ∅ → JInt 7 ≠ JStr "" →
     _load_from_file "books.json" {[ "books.json" := Document (JInt 7) ]} = Raise TypeError).
Proof.
  assert (Hnot : ∀ items, JInt 7 ≠ JArr items) by done.
  split; [reflexivity|]. split; [exact Hnot|].
  exact (load_not_array "books.json" {[ "books.json" := Document (JInt 7) ]} (JInt 7)
           eq_refl Hnot).
Defined.

(** ** How the operations of the store compose *)

Lemma list_find_first {A} (P : A → Prop) `{!∀ x, Decision (P x)} (l1 l2 : list A) x :
  (∀ y, y ∈ l1 → ¬ P y) → P x →
  list_find P (l1 ++ x :: l2) = Some (length l1, x).
Proof.
  intros Hl1 Hx. apply list_find_Some. split_and!; [|done|].
  - by rewrite list_lookup_middle.
  - intros j y Hj Hlt. rewrite lookup_app_l in Hj by done.
    apply Hl1. by eapply list_elem_of_lookup_2.
Qed.

Lemma set_books_same (self : LibraryManager) : set_books (books self) self = self.
Proof. by destruct self. Qed.

(** X7. Two calls of [add_book] in a row hand out consecutive ids. *)
Theorem add_book_twice (t1 a1 : string) (y1 : Z) (t2 a2 : string) (y2 : Z)
    (self : LibraryManager) :
  id (add_book t2 a2 y2 (add_book t1 a1 y1 self).2).1
  = id (add_book t1 a1 y1 self).1 + 1.
Proof.
  cbn. f_equal. rewrite fmap_app. cbn.
  apply (greatest_or_unique 0 ((id <$> books self) ++ [py_max 0 (id <$> books self) + 1]));
    [apply py_max_greatest|].
  right. split; [apply elem_of_app; right; by left|].
  intros x [Hx|Hx%list_elem_of_singleton]%elem_of_app; [|lia].
  destruct (py_max_greatest 0 (id <$> books self)) as [[Hnil _]|[_ Hmax]].
  - rewrite Hnil in Hx. by apply elem_of_nil in Hx.
  - specialize (Hmax x Hx). lia.
Qed.

(** X8. Removing the id that [add_book] has just returned undoes the
    addition: the store is what it was before, whatever ids it holds. *)
Theorem add_then_remove (title' author' : string) (year' : Z) (self : LibraryManager) :
  remove_book (id (add_book title' author' year' self).1)
    (add_book title' author' year' self).2
  = (true, self).
Proof.
  unfold remove_book. cbn [add_book fst snd set_books books].
  rewrite list_find_first; [|intros b Hb Heq|done].
  - unfold set_books. cbn [books filename].
    rewrite delete_middle, app_nil_r. by destruct self.
  - pose proof (add_book_id_above title' author' year' self b Hb) as Hlt.
    cbn in Hlt, Heq. lia.
Qed.

(** X9. With unique ids, removing the same id a second time finds
    nothing: it returns [False] and leaves the store alone. *)
Theorem remove_book_twice (book_id : Z) (self : LibraryManager) :
  NoDup (id <$> books self) →
  remove_book book_id (remove_book book_id self).2
  = (false, (remove_book book_id self).2).
Proof.
  intros Hnd. unfold remove_book at 2 3.
  destruct (list_find _ (books self)) as [[i book]|] eqn:Hfind; cbn [snd].
  - destruct (list_find_split _ _ _ _ Hfind) as (before & after & Hbs & -> & Hid & Hbefore).
    unfold remove_book. cbn [set_books books].
    rewrite list_find_id_None; [done|].
    rewrite Hbs, delete_middle. rewrite Hbs, fmap_app, fmap_cons in Hnd.
    apply NoDup_app in Hnd as (_ & Hdisj & [Hnot _]%NoDup_cons).
    intros b [Hb|Hb]%elem_of_app Heq.
    + by apply (Hbefore b).
    + apply Hnot. rewrite Hid, <-Heq. by apply list_elem_of_fmap_2.
  - unfold remove_book. by rewrite Hfind.
Qed.

Lemma remove_book_twice_witness :
  NoDup (id <$> books shelf)
  ∧ remove_book 1 (remove_book 1 shelf).2 = (false, (remove_book 1 shelf).2).
Proof.
  assert (H : NoDup (id <$> books shelf)).
  { cbn. apply NoDup_cons. split; [|apply NoDup_singleton].
    intros Hin%list_elem_of_singleton. discriminate Hin. }
  split; [exact H|]. exact (remove_book_twice 1 shelf H).
Defined.

(** X10. [update_status] never touches an id, a title, an author or a
    year, nor the number or order of the records or the file name,
    whatever it is given. *)
Theorem update_status_frame (book_id : Z) (new_status : string) (self : LibraryManager) :
  filename (update_status book_id new_status self).2 = filename self
  ∧ (λ b, (id b, title b, author b, year b)) <$> books (update_status book_id new_status self).2
    = (λ b, (id b, title b, author b, year b)) <$> books self.
Proof.
  destruct (update_status_cases book_id new_status self)
    as [(before & book & after & _ & Hbs & ->)| ->]; [|done].
  cbn [snd filename books]. split; [done|].
  by rewrite Hbs, !fmap_app, !fmap_cons.
Qed.

(** X11. The last status written wins: after any [update_status] on an
    id, a second one with an allowed status gives the result and the
    store that it gives when called alone. *)
Theorem update_status_twice (book_id : Z) (status1 status2 : string)
    (self : LibraryManager) :
  status2 ∈ statuses →
  update_status book_id status2 (update_status book_id status1 self).2
  = update_status book_id status2 self.
Proof.
  intros Hst2. unfold update_status at 2.
  case_bool_decide as Hst1; [done|].
  destruct (list_find _ (books self)) as [[i book]|] eqn:Hfind; [|done].
  destruct (list_find_split _ _ _ _ Hfind) as (before & after & Hbs & -> & Hid & Hbefore).
  unfold update_status. rewrite bool_decide_eq_false_2 by (intros Hn; by apply Hn).
  cbn [snd set_books books filename].
  rewrite Hfind, Hbs, alter_app_r_alt, Nat.sub_diag by lia. cbn [alter list_alter].
  rewrite list_find_first by done.
  unfold set_books. cbn [books filename].
  by rewrite !alter_app_r_alt, !Nat.sub_diag by lia.
Qed.

Lemma update_status_twice_witness :
  "в наличии" ∈ statuses
  ∧ update_status 1 "в наличии" (update_status 1 "выдана" shelf).2
    = update_status 1 "в наличии" shelf.
Proof.
  assert (H : "в наличии" ∈ statuses) by (by vm_compute).
  split; [exact H|]. exact (update_status_twice 1 "выдана" "в наличии" shelf H).
Defined.

(** ** Searching the store *)

Lemma string_append_nil_r (s : string) : s +:+ "" = s.
Proof. induction s as [|c s IH]; [done|]. by rewrite append_cons, IH. Qed.

Lemma string_append_assoc (s t u : string) : (s +:+ t) +:+ u = s +:+ t +:+ u.
Proof. induction s as [|c s IH]; [done|]. by rewrite !append_cons, IH. Qed.

Lemma substring_refl (s : string) : substring s s.
Proof. exists "", "". by rewrite string_append_nil_r. Qed.

Lemma substring_trans (s t u : string) :
  substring s t → substring t u → substring s u.
Proof.
  intros (b1 & a1 & ->) (b2 & a2 & ->).
  exists (b2 +:+ b1), (a1 +:+ a2). by rewrite !string_append_assoc.
Qed.

Lemma filter_sublist_impl {A} (P Q : A → Prop) `{!∀ x, Decision (P x)}
    `{!∀ x, Decision (Q x)} (l : list A) :
  (∀ x, P x → Q x) → filter P l `sublist_of` filter Q l.
Proof.
  intros HPQ. induction l as [|x l IH]; [done|].
  rewrite !filter_cons. destruct (decide (P x)) as [HP|HP].
  - rewrite decide_True by auto. by apply sublist_skip.
  - destruct (decide (Q x)); [by apply sublist_cons | done].
Qed.

Section SearchMore.

Variable lower : string → string.

(** X12. Every record of the store is found by its own title, by its own
    author and by its own year in decimal. *)
Theorem search_books_finds_own (book : Book) (self : LibraryManager) :
  book ∈ books self →
  book ∈ (search_books lower (title book) "title" self).1
  ∧ book ∈ (search_books lower (author book) "author" self).1
  ∧ book ∈ (search_books lower (str_int (year book)) "year" self).1.
Proof.
  intros Hin.
  rewrite !search_books_key by (by vm_compute). cbn [fst].
  rewrite !list_elem_of_filter.
  change (getattr_str book "title") with (title book).
  change (getattr_str book "author") with (author book).
  change (getattr_str book "year") with (str_int (year book)).
  split_and!; try done; apply (proj2 (py_in_spec _ _)), substring_refl.
Qed.

(** X13. A longer query narrows the search: when the lowered [query1]
    occurs in the lowered [query2], what [query2] finds under a field is
    a sublist of what [query1] finds under it. *)
Theorem search_books_narrows (query1 query2 key : string) (self : LibraryManager) :
  substring (lower query1) (lower query2) →
  (search_books lower query2 key self).1 `sublist_of` (search_books lower query1 key self).1.
Proof.
  intros Hsub. unfold search_books. case_bool_decide; [done|]. cbn [fst].
  apply filter_sublist_impl. intros b H2%py_in_spec.
  apply (proj2 (py_in_spec _ _)). by eapply substring_trans.
Qed.

(** Every call keeps the ids at 1 or above. *)
Lemma positive_ids_exec (c : command) (self : LibraryManager) :
  positive_ids (books self) → positive_ids (books (exec lower c self).2).
Proof.
  unfold positive_ids. intros Hpos.
  destruct c as [t a y|i|q k|i st|]; cbn [exec snd].
  - cbn. apply Forall_app. split; [done|]. apply Forall_singleton. cbn.
    destruct (py_max_greatest 0 (id <$> books self)) as [[_ ->]|[Hm _]]; [lia|].
    apply list_elem_of_fmap in Hm as (b & -> & Hb).
    rewrite Forall_forall in Hpos. specialize (Hpos b Hb). lia.
  - destruct (remove_book_cases i self)
      as [(before & book & after & Hbs & ->)| ->]; [|done].
    cbn. rewrite Hbs in Hpos.
    apply Forall_app in Hpos as [Hb Ha]. apply Forall_cons in Ha as [_ Ha].
    by apply Forall_app.
  - by rewrite search_books_store.
  - destruct (update_status_cases i st self)
      as [(before & book & after & _ & Hbs & ->)| ->]; [|done].
    cbn [snd books]. rewrite Hbs in Hpos.
    apply Forall_app in Hpos as [Hb Ha]. apply Forall_cons in Ha as [Hbook Ha].
    apply Forall_app. split; [done|]. by apply Forall_cons.
  - done.
Qed.

(** X14. Ids stay positive: from a store whose ids are all at least 1
    (the empty store among them), every sequence of calls leads to such a
    store, so every id [add_book] hands out there is at least 1. *)
Theorem positive_ids_run (cmds : list command) (self : LibraryManager) :
  positive_ids (books self) → positive_ids (books (run lower cmds self).2).
Proof.
  revert self. induction cmds as [|c cmds IH]; intros self Hpos; [done|].
  cbn [run snd]. apply IH. by apply positive_ids_exec.
Qed.

End SearchMore.

Lemma search_books_finds_own_witness :
  emma ∈ books shelf
  ∧ emma ∈ (search_books ascii_lower (title emma) "title" shelf).1
  ∧ emma ∈ (search_books ascii_lower (author emma) "author" shelf).1
  ∧ emma ∈ (search_books ascii_lower (str_int (year emma)) "year" shelf).1.
Proof.
  assert (H : emma ∈ books shelf) by (right; left).
  split; [exact H|]. exact (search_books_finds_own ascii_lower emma shelf H).
Defined.

Lemma search_books_narrows_witness :
  substring (ascii_lower "un") (ascii_lower "Dune")
  ∧ (search_books ascii_lower "Dune" "title" shelf).1
    `sublist_of` (search_books ascii_lower "un" "title" shelf).1.
Proof.
  assert (H : substring (ascii_lower "un") (ascii_lower "Dune")) by (by exists "d", "e").
  split; [exact H|]. exact (search_books_narrows ascii_lower "un" "Dune" "title" shelf H).
Defined.

Lemma positive_ids_run_witness :
  positive_ids (books shelf)
  ∧ positive_ids
      (books (run ascii_lower
                [CRemove 2; CAdd "Solaris" "Lem" 1961; CUpdate 1 "выдана"; CRemove 1;
                 CRemove 2; CAdd "Ubik" "Dick" 1969]
                shelf).2).
Proof.
  assert (H : positive_ids (books shelf)).
  { unfold positive_ids. cbn. repeat constructor; cbn; lia. }
  split; [exact H|]. exact (positive_ids_run ascii_lower _ shelf H).
Defined.

(** ** The loop of [main] *)

Lemma init_after_save (self : LibraryManager) (fs : gmap string file) :
  LibraryManager_init (filename self) (save_to_file self fs) = Return self.
Proof.
  unfold LibraryManager_init, _load_from_file, save_to_file, open_r.
  rewrite lookup_insert_eq. cbn. rewrite comprehension_from_dict. cbn.
  by destruct self.
Qed.

Lemma init_filename (name : string) (fs : gmap string file) (self : LibraryManager) :
  LibraryManager_init name fs = Return self → filename self = name.
Proof.
  unfold LibraryManager_init.
  destruct (_load_from_file name fs); cbn; [|done..]. by intros [= <-].
Qed.

Section ConsoleProperties.

Variable lower : string → string.
Variable py_int : string → option Z.
Variable repr_str : string → string.

Lemma run_app (cmds1 cmds2 : list command) (self : LibraryManager) :
  (run lower (cmds1 ++ cmds2) self).2 = (run lower cmds2 (run lower cmds1 self).2).2.
Proof.
  revert self. induction cmds1 as [|c cmds1 IH]; intros self; [done|].
  cbn [app run snd]. apply IH.
Qed.

Lemma exec_filename (c : command) (self : LibraryManager) :
  filename (exec lower c self).2 = filename self.
Proof.
  destruct c as [t a y|i|q k|i st|]; cbn [exec snd]; try done.
  - by destruct (remove_book_cases i self) as [(? & ? & ? & _ & ->)| ->].
  - by rewrite search_books_store.
  - by destruct (update_status_cases i st self) as [(? & ? & ? & _ & _ & ->)| ->].
Qed.

Lemma run_filename (cmds : list command) (self : LibraryManager) :
  filename (run lower cmds self).2 = filename self.
Proof.
  revert self. induction cmds as [|c cmds IH]; intros self; [done|].
  cbn [run snd]. by rewrite IH, exec_filename.
Qed.

Lemma run_store_invariant (cmds : list command) (self : LibraryManager) :
  store_invariant (books self) → store_invariant (books (run lower cmds self).2).
Proof.
  revert self. induction cmds as [|c cmds IH]; intros self Hinv; [done|].
  cbn [run snd]. apply IH. by apply store_invariant_exec.
Qed.

Ltac io_step :=
  match goal with
  | |- context [match ?l with [] => _ | _ :: _ => _ end] => destruct l as [|? ?]
  | |- context [py_int ?x] => destruct (py_int x)
  | |- context [bool_decide ?P] => destruct (bool_decide P)
  end;
  cbn -[add_book remove_book update_status main_search display_books menu].

(** One turn of the loop: it reads at least one line, it changes the
    store by calls of the manager only, and it writes the file only
    when it ends the loop. *)
Lemma iteration_spec (library : LibraryManager) (w : world) :
  match iteration lower py_int repr_str library w with
  | Got (Continue library') w' =>
      files w' = files w
      ∧ (length (stdin w') < length (stdin w))%nat
      ∧ ∃ cmds, library' = (run lower cmds library).2
  | Got (Break library') w' =>
      library' = library ∧ files w' = save_to_file library (files w)
  | EOFError w' => files w' = files w
  end.
Proof.
  destruct w as [fs inp out].
  unfold iteration, print_lines, print, input, write_file, mbind, io_bind, mret, io_ret.
  cbn -[add_book remove_book update_status main_search display_books menu].
  repeat (io_step; try done).
  all: split; [done|]; split; [lia|].
  all: first [ by exists [] | by eexists [CAdd _ _ _] | by eexists [CRemove _]
             | by eexists [CUpdate _ _] ].
Qed.

Lemma loop_spec (fuel : nat) (library : LibraryManager) (w : world) :
  (length (stdin w) < fuel)%nat →
  match loop lower py_int repr_str fuel library w with
  | Exited library' w' =>
      (∃ cmds, library' = (run lower cmds library).2)
      ∧ files w' = save_to_file library' (files w)
  | InputEnded w' => files w' = files w
  | _ => False
  end.
Proof.
  revert library w. induction fuel as [|fuel IH]; intros library w Hfuel; [lia|].
  cbn [loop]. pose proof (iteration_spec library w) as Hturn.
  destruct (iteration lower py_int repr_str library w) as [[library'|library'] w'|w'].
  - destruct Hturn as (Hfiles & Hlen & cmds & ->).
    assert (Hfuel' : (length (stdin w') < fuel)%nat) by lia.
    specialize (IH (run lower cmds library).2 w' Hfuel').
    destruct (loop lower py_int repr_str fuel (run lower cmds library).2 w')
      as [library'' w''|w''| | |]; try done.
    + destruct IH as [(cmds' & ->) Hsave]. split; [|by rewrite Hsave, Hfiles].
      exists (cmds ++ cmds'). by rewrite run_app.
    + by rewrite IH.
  - destruct Hturn as [-> Hfiles]. split; [by exists []|done].
  - done.
Qed.

Lemma main_exited (w w' : world) (library : LibraryManager) :
  main lower py_int repr_str w = Exited library w' →
  ∃ library0 cmds,
    LibraryManager_init "books.json" (files w) = Return library0
    ∧ library = (run lower cmds library0).2
    ∧ filename library = "books.json"
    ∧ files w' = save_to_file library (files w).
Proof.
  unfold main.
  destruct (LibraryManager_init "books.json" (files w)) as [library0| |] eqn:Hinit;
    [|done..].
  pose proof (loop_spec (S (length (stdin w))) library0 w) as Hloop.
  intros Hmain. rewrite Hmain in Hloop.
  destruct Hloop as [(cmds & ->) Hsave]; [lia|].
  exists library0, cmds. split_and!; [done..| |done].
  rewrite run_filename. by eapply init_filename.
Qed.

(** X16. [main] comes to an end on every terminal input: the turns and
    one that the input has lines for are always enough. *)
Theorem main_ends (w : world) : main lower py_int repr_str w ≠ NoFuel.
Proof.
  unfold main.
  destruct (LibraryManager_init "books.json" (files w)) as [library0| |]; [|done..].
  pose proof (loop_spec (S (length (stdin w))) library0 w) as Hloop.
  intros Hmain. rewrite Hmain in Hloop. apply Hloop. lia.
Qed.

(** X17. [main] writes a file only when the user leaves with [6], and
    then only [books.json], which gets the final collection.  When the
    input ends before that, the files are as they were: what the session
    changed is lost. *)
Theorem main_files (w : world) :
  match main lower py_int repr_str w with
  | Exited library w' =>
      files w' = <["books.json" := Document (JArr (to_dict <$> books library))]> (files w)
  | InputEnded w' => files w' = files w
  | _ => True
  end.
Proof.
  destruct (main lower py_int repr_str w) as [library w'|w'| | |] eqn:Hmain; try done.
  - apply main_exited in Hmain as (library0 & cmds & _ & _ & Hname & ->).
    unfold save_to_file. by rewrite Hname.
  - unfold main in Hmain.
    destruct (LibraryManager_init "books.json" (files w)) as [library0| |]; [|done..].
    pose proof (loop_spec (S (length (stdin w))) library0 w) as Hloop.
    rewrite Hmain in Hloop. apply Hloop. lia.
Qed.

(** X18. What a session saves is what the next one starts with: after
    [main] has returned, constructing the manager on the files it left
    gives the store the session ended with. *)
Theorem main_then_init (w w' : world) (library : LibraryManager) :
  main lower py_int repr_str w = Exited library w' →
  LibraryManager_init "books.json" (files w') = Return library.
Proof.
  intros (library0 & cmds & _ & _ & Hname & ->)%main_exited.
  rewrite <-Hname at 1. apply init_after_save.
Qed.

(** X19. [main] changes the store through the manager only: the store
    it ends with is the loaded one after some sequence of [add_book],
    [remove_book], [search_books], [update_status] and [display_books]
    calls. *)
Theorem main_runs_calls (w w' : world) (library : LibraryManager) :
  main lower py_int repr_str w = Exited library w' →
  ∃ library0 cmds,
    LibraryManager_init "books.json" (files w) = Return library0
    ∧ library = (run lower cmds library0).2.
Proof.
  intros (library0 & cmds & Hinit & Hrun & _)%main_exited. eauto.
Qed.

(** X20. A session keeps the file sound: when the collection loaded at
    the start has unique ids and allowed statuses, so has the collection
    that [main] saves. *)
Theorem main_store_invariant (w w' : world) (library0 library : LibraryManager) :
  LibraryManager_init "books.json" (files w) = Return library0 →
  store_invariant (books library0) →
  main lower py_int repr_str w = Exited library w' →
  store_invariant (books library).
Proof.
  intros Hinit Hinv (library1 & cmds & Hinit' & -> & _)%main_exited.
  rewrite Hinit in Hinit'. injection Hinit' as <-.
  by apply run_store_invariant.
Qed.

(** X21. In option 5 a status that is not allowed is answered with the
    "no book with this id" message, whether the id is there or not; the
    store is not changed. *)
Theorem iteration_invalid_status (library : LibraryManager) (w : world)
    (id_text new_status : string) (rest : list string) (book_id : Z) :
  stdin w = "5" :: id_text :: new_status :: rest →
  py_int id_text = Some book_id →
  new_status ∉ statuses →
  iteration lower py_int repr_str library w
  = Got (Continue library)
      (mkWorld (files w) rest
         (stdout w ++ (Line <$> menu)
          ++ [Prompt "Выберите действие: "; Prompt "Введите ID книги: ";
              Prompt "Введите новый статус (в наличии/выдана): ";
              Line "Ошибка: Книга с указанным ID не найдена."])).
Proof.
  destruct w as [fs inp out]. cbn [stdin files stdout]. intros -> Hint Hst.
  unfold iteration, print_lines, print, input, write_file, mbind, io_bind, mret, io_ret.
  cbn -[update_status menu].
  repeat (case_bool_decide; try done). cbn -[update_status menu]. rewrite Hint.
  cbn -[update_status menu].
  unfold update_status. rewrite bool_decide_eq_true_2 by done. cbn -[menu].
  by rewrite <-!app_assoc.
Qed.

(** X22. In option 1 a year that is no number adds nothing: the title
    and the author have been read, the message is printed and the loop
    goes on with the store as it was. *)
Theorem iteration_invalid_year (library : LibraryManager) (w : world)
    (title' author' year_text : string) (rest : list string) :
  stdin w = "1" :: title' :: author' :: year_text :: rest →
  py_int year_text = None →
  iteration lower py_int repr_str library w
  = Got (Continue library)
      (mkWorld (files w) rest
         (stdout w ++ (Line <$> menu)
          ++ [Prompt "Выберите действие: "; Prompt "Введите название книги: ";
              Prompt "Введите автора книги: "; Prompt "Введите год издания книги: ";
              Line "Ошибка: Год издания должен быть числом."])).
Proof.
  destruct w as [fs inp out]. cbn [stdin files stdout]. intros -> Hint.
  unfold iteration, print_lines, print, input, write_file, mbind, io_bind, mret, io_ret.
  cbn -[add_book menu].
  repeat (case_bool_decide; try done). cbn -[add_book menu]. rewrite Hint. cbn -[menu].
  by rewrite <-!app_assoc.
Qed.

End ConsoleProperties.

Lemma main_then_init_witness :
  main ascii_lower ascii_int plain_repr session
    = Exited shelf (world_after (main ascii_lower ascii_int plain_repr session) session)
  ∧ LibraryManager_init "books.json"
      (files (world_after (main ascii_lower ascii_int plain_repr session) session))
    = Return shelf.
Proof.
  assert (H : main ascii_lower ascii_int plain_repr session
              = Exited shelf (world_after (main ascii_lower ascii_int plain_repr session) session))
    by (vm_compute; reflexivity).
  split; [exact H|].
  exact (main_then_init ascii_lower ascii_int plain_repr session _ shelf H).
Defined.

Lemma main_runs_calls_witness :
  main ascii_lower ascii_int plain_repr session
    = Exited shelf (world_after (main ascii_lower ascii_int plain_repr session) session)
  ∧ ∃ library0 cmds,
      LibraryManager_init "books.json" (files session) = Return library0
      ∧ shelf = (run ascii_lower cmds library0).2.
Proof.
  assert (H : main ascii_lower ascii_int plain_repr session
              = Exited shelf (world_after (main ascii_lower ascii_int plain_repr session) session))
    by (vm_compute; reflexivity).
  split; [exact H|].
  exact (main_runs_calls ascii_lower ascii_int plain_repr session _ shelf H).
Defined.

Lemma main_store_invariant_witness :
  LibraryManager_init "books.json" (files session) = Return empty_shelf
  ∧ store_invariant (books empty_shelf)
  ∧ main ascii_lower ascii_int plain_repr session
    = Exited shelf (world_after (main ascii_lower ascii_int plain_repr session) session)
  ∧ store_invariant (books shelf).
Proof.
  assert (H1 : LibraryManager_init "books.json" (files session) = Return empty_shelf)
    by reflexivity.
  assert (H2 : store_invariant (books empty_shelf)) by exact store_invariant_nil.
  assert (H3 : main ascii_lower ascii_int plain_repr session
              = Exited shelf (world_after (main ascii_lower ascii_int plain_repr session) session))
    by (vm_compute; reflexivity).
  split_and!; [exact H1 | exact H2 | exact H3 |].
  exact (main_store_invariant ascii_lower ascii_int plain_repr session _ empty_shelf shelf
           H1 H2 H3).
Defined.

Lemma iteration_invalid_status_witness :
  stdin (mkWorld ∅ ["5"; "1"; "lost"; "6"] []) = "5" :: "1" :: "lost" :: ["6"]
  ∧ ascii_int "1" = Some 1
  ∧ ("lost" ∉ statuses)
  ∧ iteration ascii_lower ascii_int plain_repr shelf (mkWorld ∅ ["5"; "1"; "lost"; "6"] [])
    = Got (Continue shelf)
        (mkWorld ∅ ["6"]
           ([] ++ (Line <$> menu)
            ++ [Prompt "Выберите действие: "; Prompt "Введите ID книги: ";
                Prompt "Введите новый статус (в наличии/выдана): ";
                Line "Ошибка: Книга с указанным ID не найдена."])).
Proof.
  assert (H3 : "lost" ∉ statuses) by (by vm_compute).
  split_and!; [reflexivity | reflexivity | exact H3 |].
  exact (iteration_invalid_status ascii_lower ascii_int plain_repr shelf
           (mkWorld ∅ ["5"; "1"; "lost"; "6"] []) "1" "lost" ["6"] 1 eq_refl eq_refl H3).
Defined.

Lemma iteration_invalid_year_witness :
  stdin (mkWorld ∅ ["1"; "Ubik"; "Dick"; "MCMLXIX"; "6"] [])
    = "1" :: "Ubik" :: "Dick" :: "MCMLXIX" :: ["6"]
  ∧ ascii_int "MCMLXIX" = None
  ∧ iteration ascii_lower ascii_int plain_repr shelf
      (mkWorld ∅ ["1"; "Ubik"; "Dick"; "MCMLXIX"; "6"] [])
    = Got (Continue shelf)
        (mkWorld ∅ ["6"]
           ([] ++ (Line <$> menu)
            ++ [Prompt "Выберите действие: "; Prompt "Введите название книги: ";
                Prompt "Введите автора книги: "; Prompt "Введите год издания книги: ";
                Line "Ошибка: Год издания должен быть числом."])).
Proof.
  split_and!; [reflexivity | reflexivity |].
  exact (iteration_invalid_year ascii_lower ascii_int plain_repr shelf
           (mkWorld ∅ ["1"; "Ubik"; "Dick"; "MCMLXIX"; "6"] []) "Ubik" "Dick" "MCMLXIX" ["6"]
           eq_refl eq_refl).
Defined.
